(** * sjsneakerz: configuration scripts for the resale workbook

    A shallow embedding of the Python scripts of the repository
    (create_resale_sheet.py, create_inventory_form.py,
    migrate_to_consolidated.py, remove_condition_column.py,
    add_inventory_filters.py, add_item_id_dropdown.py,
    add_essentials_hoodie.py) and of the spreadsheet formulas they
    install.

    Conventions.
    - Text is [string] (ASCII text); Python's [str] methods are embedded
      on the code points below 128.
    - A tab is a table of strings; an empty cell is the empty string.
    - Row and column numbers of the formula language are 1-based, as in
      A1 notation; Python indices are 0-based, as in the source. *)

From Stdlib Require Import String Ascii List Bool Arith Lia NArith.
From Stdlib Require Import DecimalString.
From Stdlib Require DecimalFacts DecimalN.
Import ListNotations.
Local Open Scope string_scope.
Local Open Scope list_scope.

(* ================================================================= *)
(** ** Python string operations used by the scripts *)

Module PyStr.

(** [needle in hay] *)
Fixpoint contains (needle hay : string) : bool :=
  prefix needle hay ||
  match hay with
  | EmptyString => false
  | String _ t => contains needle t
  end.

(** [s.split(sep)] for a non-empty separator.  [skip] counts the
    characters of a separator occurrence that are still to be dropped,
    so that occurrences are found left to right and do not overlap. *)
Fixpoint split_go (sep s : string) (skip : nat) : list string :=
  match s with
  | EmptyString => [""]
  | String c t =>
      match skip with
      | S k => split_go sep t k
      | O =>
          if prefix sep s
          then "" :: split_go sep t (String.length sep - 1)
          else match split_go sep t 0 with
               | h :: r => String c h :: r
               | [] => [String c ""]
               end
      end
  end.

Definition split (sep s : string) : list string := split_go sep s 0.

(** [str.isspace] on the code points below 128: TAB..CR, FS..US, SPACE. *)
Definition is_space (c : ascii) : bool :=
  let n := nat_of_ascii c in
  (Nat.leb 9 n && Nat.leb n 13) || (Nat.leb 28 n && Nat.leb n 32).

Fixpoint lstrip (s : string) : string :=
  match s with
  | EmptyString => ""
  | String c t => if is_space c then lstrip t else s
  end.

Fixpoint rstrip (s : string) : string :=
  match s with
  | EmptyString => ""
  | String c t =>
      match rstrip t with
      | EmptyString => if is_space c then "" else String c ""
      | t' => String c t'
      end
  end.

(** [s.strip()] *)
Definition strip (s : string) : string := rstrip (lstrip s).

Definition lower_char (c : ascii) : ascii :=
  let n := nat_of_ascii c in
  if Nat.leb 65 n && Nat.leb n 90 then ascii_of_nat (n + 32) else c.

(** [s.lower()] *)
Fixpoint lower (s : string) : string :=
  match s with
  | EmptyString => ""
  | String c t => String (lower_char c) (lower t)
  end.

(** [x in xs] for a list of strings *)
Definition mem (x : string) (xs : list string) : bool :=
  existsb (String.eqb x) xs.

(** [str(n)] for a non-negative integer *)
Definition of_N (n : N) : string := NilZero.string_of_uint (N.to_uint n).

End PyStr.

(* ================================================================= *)
(** ** Reading the spreadsheet ID (the [main] functions) *)

Module SpreadsheetId.
Import PyStr.

(** [f"https://docs.google.com/spreadsheets/d/{spreadsheet_id}"] *)
Definition spreadsheet_url (spreadsheet_id : string) : string :=
  "https://docs.google.com/spreadsheets/d/" ++ spreadsheet_id.

(** The extraction on the stripped input.  [None] is the [exit(1)] of
    "Could not parse spreadsheet ID from URL".
<<
    if 'docs.google.com/spreadsheets' in user_input:
        parts = user_input.split('/d/')
        if len(parts) > 1:
            spreadsheet_id = parts[1].split('/')[0]
        else: exit(1)
    else:
        spreadsheet_id = user_input
>> *)
Definition extract_id (user_input : string) : option string :=
  if contains "docs.google.com/spreadsheets" user_input then
    match split "/d/" user_input with
    | _ :: p1 :: _ => Some (hd "" (split "/" p1))
    | _ => None
    end
  else Some user_input.

(** The whole prompt branch: [user_input = input("URL or ID: ").strip()]
    followed by the extraction. *)
Definition parse_input (line : string) : option string :=
  extract_id (strip line).

End SpreadsheetId.

(* ================================================================= *)
(** ** The spreadsheet formula language

    The scripts install formulas as text.  This module gives the
    fragment of the formula language those texts use a syntax (lexer and
    parser) and an evaluation semantics over tables of strings.

    Modelling choices, all of them about the spreadsheet product rather
    than about the scripts:
    - a cell holds text, and the empty text is a blank cell;
    - text is compared exactly (no case folding, no wildcard criteria);
    - a relative row reference moves with the cell when a formula is
      filled down [env_fill] rows from the cell it was written to;
    - [QUERY] is modelled for the one query text the scripts use. *)

Module Formula.
Import PyStr.

(** *** Syntax *)

Inductive token :=
| TStr (s : string)
| TNum (n : N)
| TName (s : string)
| TLParen | TRParen | TLBrace | TRBrace | TComma
| TEq | TNe | TLt | TGt.

Inductive lex_mode :=
| MStart
| MStr (acc : string)
| MName (acc : string)
| MNum (acc : N)
| MLt.

Definition in_range (lo hi : nat) (c : ascii) : bool :=
  let n := nat_of_ascii c in Nat.leb lo n && Nat.leb n hi.

Definition is_digit : ascii -> bool := in_range 48 57.
Definition is_upper : ascii -> bool := in_range 65 90.
Definition is_letter (c : ascii) : bool := is_upper c || in_range 97 122 c.
Definition digit_val (c : ascii) : N := N.of_nat (nat_of_ascii c - 48).

(** Characters of a name: letters, digits and the punctuation of A1
    references ([!], [$], [:]). *)
Definition is_name_char (c : ascii) : bool :=
  is_letter c || is_digit c ||
  Ascii.eqb c "!" || Ascii.eqb c "$" || Ascii.eqb c ":".

Definition snoc (s : string) (c : ascii) : string := s ++ String c "".

Definition quote : ascii := "034".

Definition lex_start (c : ascii) : option (list token * lex_mode) :=
  if is_space c then Some ([], MStart)
  else if Ascii.eqb c quote then Some ([], MStr "")
  else if is_letter c || Ascii.eqb c "$" then Some ([], MName (String c ""))
  else if is_digit c then Some ([], MNum (digit_val c))
  else if Ascii.eqb c "(" then Some ([TLParen], MStart)
  else if Ascii.eqb c ")" then Some ([TRParen], MStart)
  else if Ascii.eqb c "{" then Some ([TLBrace], MStart)
  else if Ascii.eqb c "}" then Some ([TRBrace], MStart)
  else if Ascii.eqb c "," then Some ([TComma], MStart)
  else if Ascii.eqb c "=" then Some ([TEq], MStart)
  else if Ascii.eqb c ">" then Some ([TGt], MStart)
  else if Ascii.eqb c "<" then Some ([], MLt)
  else None.

Definition emit_then (t : token) (c : ascii) : option (list token * lex_mode) :=
  match lex_start c with
  | Some (ts, m) => Some (t :: ts, m)
  | None => None
  end.

Definition lex_step (m : lex_mode) (c : ascii) : option (list token * lex_mode) :=
  match m with
  | MStart => lex_start c
  | MStr acc =>
      if Ascii.eqb c quote then Some ([TStr acc], MStart)
      else Some ([], MStr (snoc acc c))
  | MName acc =>
      if is_name_char c then Some ([], MName (snoc acc c))
      else emit_then (TName acc) c
  | MNum n =>
      if is_digit c then Some ([], MNum (10 * n + digit_val c))
      else emit_then (TNum n) c
  | MLt =>
      if Ascii.eqb c ">" then Some ([TNe], MStart)
      else emit_then TLt c
  end.

Definition lex_flush (m : lex_mode) : option (list token) :=
  match m with
  | MStart => Some []
  | MStr _ => None
  | MName acc => Some [TName acc]
  | MNum n => Some [TNum n]
  | MLt => Some [TLt]
  end.

Fixpoint lex (s : string) (m : lex_mode) : option (list token) :=
  match s with
  | EmptyString => lex_flush m
  | String c t =>
      match lex_step m c with
      | None => None
      | Some (ts, m') => option_map (app ts) (lex t m')
      end
  end.

Inductive cmpop := OpEq | OpNe | OpLt | OpGt.

Inductive func :=
| FIf | FAnd | FConcatenate | FCountif | FRow
| FIferror | FVlookup | FArrayformula | FQuery.

(** One end of an A1 reference: a column (1 for A), an optional row,
    and the [$] marks. *)
Record endpoint := {
  ep_col : nat; ep_col_abs : bool;
  ep_row : option nat; ep_row_abs : bool }.

#[local] Unset Elimination Schemes.
Inductive expr :=
| EStr (s : string)
| ENum (n : N)
| EBool (b : bool)
| EBlank                                   (* an omitted argument *)
| ERef (sheet : option string) (lo : endpoint) (hi : option endpoint)
| ECmp (op : cmpop) (a b : expr)
| ECall (f : func) (args : list expr)
| EArr (columns : list expr).              (* { e1, e2, ... } *)
#[local] Set Elimination Schemes.

Definition func_of_name (s : string) : option func :=
  if s =? "IF" then Some FIf
  else if s =? "AND" then Some FAnd
  else if s =? "CONCATENATE" then Some FConcatenate
  else if s =? "COUNTIF" then Some FCountif
  else if s =? "ROW" then Some FRow
  else if s =? "IFERROR" then Some FIferror
  else if s =? "VLOOKUP" then Some FVlookup
  else if s =? "ARRAYFORMULA" then Some FArrayformula
  else if s =? "QUERY" then Some FQuery
  else None.

(** [span p s]: the longest prefix of [s] whose characters satisfy [p],
    and the rest. *)
Fixpoint span (p : ascii -> bool) (s : string) : string * string :=
  match s with
  | EmptyString => ("", "")
  | String c t =>
      if p c then let (a, b) := span p t in (String c a, b) else ("", s)
  end.

Definition drop_dollar (s : string) : bool * string :=
  match s with
  | String c t => if Ascii.eqb c "$" then (true, t) else (false, s)
  | EmptyString => (false, s)
  end.

Fixpoint number_of (digits : string) (acc : N) : N :=
  match digits with
  | EmptyString => acc
  | String c t => number_of t (10 * acc + digit_val c)
  end.

(** Column letters to a column number: A = 1, ..., Z = 26, AA = 27. *)
Fixpoint column_of (letters : string) (acc : nat) : nat :=
  match letters with
  | EmptyString => acc
  | String c t => column_of t (26 * acc + (nat_of_ascii c - 64))
  end.

Definition parse_endpoint (s : string) : option endpoint :=
  let (cabs, s1) := drop_dollar s in
  let (letters, s2) := span is_upper s1 in
  let (rabs, s3) := drop_dollar s2 in
  let (digits, s4) := span is_digit s3 in
  match letters, s4 with
  | String _ _, EmptyString =>
      match digits with
      | EmptyString =>
          if rabs then None
          else Some {| ep_col := column_of letters 0; ep_col_abs := cabs;
                       ep_row := None; ep_row_abs := false |}
      | _ => Some {| ep_col := column_of letters 0; ep_col_abs := cabs;
                     ep_row := Some (N.to_nat (number_of digits 0));
                     ep_row_abs := rabs |}
      end
  | _, _ => None
  end.

Definition not_char (x : ascii) (c : ascii) : bool := negb (Ascii.eqb c x).

(** [Sheet!A2:B], [C2], [Sales!$A:$A] *)
Definition parse_ref (s : string) : option expr :=
  let (sheet, body) :=
    match span (not_char "!") s with
    | (name, String _ rest) => (Some name, rest)
    | (_, EmptyString) => (None, s)
    end in
  match span (not_char ":") body with
  | (a, EmptyString) =>
      match parse_endpoint a with
      | Some lo =>
          match ep_row lo with
          | Some _ => Some (ERef sheet lo None)
          | None => None
          end
      | None => None
      end
  | (a, String _ b) =>
      match parse_endpoint a, parse_endpoint b with
      | Some lo, Some hi => Some (ERef sheet lo (Some hi))
      | _, _ => None
      end
  end.

Definition parse_atom (s : string) : option expr :=
  if s =? "TRUE" then Some (EBool true)
  else if s =? "FALSE" then Some (EBool false)
  else parse_ref s.

Definition cmp_of_token (t : token) : option cmpop :=
  match t with
  | TEq => Some OpEq | TNe => Some OpNe
  | TLt => Some OpLt | TGt => Some OpGt
  | _ => None
  end.

(** Recursive descent; [fuel] bounds the nesting.
<<
    expr ::= term [ ( = | <> | < | > ) term ]
    term ::= STRING | NUMBER | NAME ( args ) | NAME | { expr , ... }
    args ::= empty | arg , ... , arg        (an arg may be omitted)
>> *)
Fixpoint parse_expr (fuel : nat) (ts : list token) : option (expr * list token) :=
  match fuel with
  | O => None
  | S k =>
      match parse_term k ts with
      | Some (a, t :: r) =>
          match cmp_of_token t with
          | Some op =>
              match parse_term k r with
              | Some (b, r') => Some (ECmp op a b, r')
              | None => None
              end
          | None => Some (a, t :: r)
          end
      | other => other
      end
  end
with parse_term (fuel : nat) (ts : list token) : option (expr * list token) :=
  match fuel with
  | O => None
  | S k =>
      match ts with
      | TStr s :: r => Some (EStr s, r)
      | TNum n :: r => Some (ENum n, r)
      | TName f :: TLParen :: TRParen :: r =>
          match func_of_name f with
          | Some fn => Some (ECall fn [], r)
          | None => None
          end
      | TName f :: TLParen :: r =>
          match func_of_name f, parse_list k true TRParen r with
          | Some fn, Some (args, r') => Some (ECall fn args, r')
          | _, _ => None
          end
      | TName x :: r =>
          match parse_atom x with
          | Some e => Some (e, r)
          | None => None
          end
      | TLBrace :: r =>
          match parse_list k false TRBrace r with
          | Some (es, r') => Some (EArr es, r')
          | None => None
          end
      | _ => None
      end
  end
with parse_list (fuel : nat) (blanks : bool) (close : token) (ts : list token)
  : option (list expr * list token) :=
  match fuel with
  | O => None
  | S k =>
      let first :=
        match ts with
        | TComma :: _ | TRParen :: _ =>
            if blanks then Some (EBlank, ts) else None
        | _ => parse_expr k ts
        end in
      match first with
      | Some (e, TComma :: r) =>
          match parse_list k blanks close r with
          | Some (es, r') => Some (e :: es, r')
          | None => None
          end
      | Some (e, TRParen :: r) =>
          match close with TRParen => Some ([e], r) | _ => None end
      | Some (e, TRBrace :: r) =>
          match close with TRBrace => Some ([e], r) | _ => None end
      | _ => None
      end
  end.

(** A formula is [=] followed by one expression. *)
Definition parse (formula : string) : option expr :=
  match lex formula MStart with
  | Some (TEq :: ts) =>
      match parse_expr (3 * List.length ts + 3) ts with
      | Some (e, []) => Some e
      | _ => None
      end
  | _ => None
  end.

End Formula.

(* ================================================================= *)
(** ** Evaluation of formulas over the workbook *)

Module Sheet.
Import PyStr Formula.

(** A tab is a table of strings: a list of rows, row 1 first. *)
Definition grid := list (list string).

(** The three tabs of the workbook ([create_spreadsheet]). *)
Record workbook := {
  Inventory : grid;
  Sales : grid;
  ShippingDashboard : grid }.

Definition tab (wb : workbook) (title : string) : option grid :=
  if title =? "Inventory" then Some (Inventory wb)
  else if title =? "Sales" then Some (Sales wb)
  else if title =? "Shipping Dashboard" then Some (ShippingDashboard wb)
  else None.

(** The cell of a row at a 0-based column index; a missing cell is empty. *)
Definition cell (row : list string) (index : nat) : string := nth index row "".

(** The cell at a 1-based row and column. *)
Definition cell_at (g : grid) (r c : nat) : string :=
  cell (nth (r - 1) g []) (c - 1).

Inductive scalar :=
| SBlank
| SStr (s : string)
| SNum (n : N)
| SBool (b : bool)
| SErr.

(** A value is one scalar or a table of scalars (rows of columns). *)
Inductive value :=
| VScalar (s : scalar)
| VArray (rows : list (list scalar)).

Definition of_cell (s : string) : scalar :=
  if s =? "" then SBlank else SStr s.

(** The text of a scalar, as a cell shows it and as CONCATENATE sees it. *)
Definition text_of (s : scalar) : string :=
  match s with
  | SBlank => ""
  | SStr s => s
  | SNum n => of_N n
  | SBool true => "TRUE"
  | SBool false => "FALSE"
  | SErr => "#ERROR!"
  end.

Definition is_err (s : scalar) : bool :=
  match s with SErr => true | _ => false end.

(** Where a formula is evaluated: the workbook, the tab and the row of
    the cell the script wrote the formula to, and the number of rows the
    formula has been filled down from there (0 for the written cell). *)
Record env := {
  env_wb : workbook;
  env_tab : string;
  env_row : nat;
  env_fill : nat }.

Definition resolve_row (e : env) (p : endpoint) (r : nat) : nat :=
  if ep_row_abs p then r else r + env_fill e.

(** The cells of a row in the columns [c1..c2] (1-based, inclusive). *)
Definition row_cells (c1 c2 : nat) (row : list string) : list scalar :=
  map (fun j => of_cell (cell row j)) (seq (c1 - 1) (c2 + 1 - c1)).

Definition eval_ref (e : env) (sheet : option string)
                    (lo : endpoint) (hi : option endpoint) : value :=
  match tab (env_wb e) (match sheet with Some t => t | None => env_tab e end) with
  | None => VScalar SErr
  | Some g =>
      match hi with
      | None =>
          match ep_row lo with
          | Some r => VScalar (of_cell (cell_at g (resolve_row e lo r) (ep_col lo)))
          | None => VScalar SErr
          end
      | Some hi =>
          let r1 := match ep_row lo with
                    | Some r => resolve_row e lo r
                    | None => 1
                    end in
          let from := skipn (r1 - 1) g in
          let rows := match ep_row hi with
                      | Some r2 => firstn (resolve_row e hi r2 + 1 - r1) from
                      | None => from
                      end in
          VArray (map (row_cells (ep_col lo) (ep_col hi)) rows)
      end
  end.

(** *** Lifting scalar functions over tables *)

Definition rows_of (v : value) : list (list scalar) :=
  match v with
  | VScalar s => [[s]]
  | VArray rows => rows
  end.

(** The scalar of a row at column [j] (0-based); a one-column row is
    repeated, and a position outside a wider row is an error. *)
Definition pick (row : list scalar) (j : nat) : scalar :=
  match nth_error row (if Nat.eqb (List.length row) 1 then 0 else j) with
  | None => SErr
  | Some s => s
  end.

(** The scalar of [v] at row [i], column [j] (0-based); scalars and
    one-row or one-column tables are repeated, and a position outside a
    larger table is an error. *)
Definition item (v : value) (i j : nat) : scalar :=
  match v with
  | VScalar s => s
  | VArray rows =>
      match nth_error rows (if Nat.eqb (List.length rows) 1 then 0 else i) with
      | None => SErr
      | Some row => pick row j
      end
  end.

(** The common shape of the table arguments; [None] when all are scalars. *)
Fixpoint shape (vs : list value) : option (nat * nat) :=
  match vs with
  | [] => None
  | VScalar _ :: rest => shape rest
  | VArray rows :: rest =>
      let n := List.length rows in
      let m := List.length (hd [] rows) in
      match shape rest with
      | None => Some (n, m)
      | Some (n', m') => Some (Nat.max n n', Nat.max m m')
      end
  end.

Definition table (n m : nat) (f : nat -> nat -> scalar) : list (list scalar) :=
  map (fun i => map (f i) (seq 0 m)) (seq 0 n).

Definition lift (f : list scalar -> scalar) (vs : list value) : value :=
  match shape vs with
  | None => VScalar (f (map (fun v => item v 0 0) vs))
  | Some (n, m) =>
      VArray (table n m (fun i j => f (map (fun v => item v i j) vs)))
  end.

(** All the scalars of the arguments, in reading order. *)
Definition scalars (vs : list value) : list scalar :=
  concat (map (fun v => concat (rows_of v)) vs).

(** *** The operators and functions *)

Definition as_bool (s : scalar) : option bool :=
  match s with
  | SBool b => Some b
  | SNum n => Some (negb (N.eqb n 0))
  | SBlank => Some false
  | SStr _ | SErr => None
  end.

Definition as_num (s : scalar) : option N :=
  match s with
  | SNum n => Some n
  | SBlank => Some 0%N
  | _ => None
  end.

(** Equality: text with text (a blank is the empty text), number with
    number (a blank is 0), truth value with truth value. *)
Definition same (a b : scalar) : option bool :=
  match a, b with
  | SErr, _ | _, SErr => None
  | SNum m, SNum n => Some (N.eqb m n)
  | SNum m, SBlank | SBlank, SNum m => Some (N.eqb m 0)
  | SBool x, SBool y => Some (Bool.eqb x y)
  | SBool x, SBlank | SBlank, SBool x => Some (negb x)
  | (SBlank | SStr _), (SBlank | SStr _) => Some (text_of a =? text_of b)
  | _, _ => Some false
  end.

Definition of_option_bool (o : option bool) : scalar :=
  match o with Some b => SBool b | None => SErr end.

(** Comparison operators; the order is modelled on numbers only. *)
Definition fn_cmp (op : cmpop) (args : list scalar) : scalar :=
  match args with
  | [a; b] =>
      match op with
      | OpEq => of_option_bool (same a b)
      | OpNe => of_option_bool (option_map negb (same a b))
      | OpLt => match as_num a, as_num b with
                | Some m, Some n => SBool (N.ltb m n)
                | _, _ => SErr
                end
      | OpGt => match as_num a, as_num b with
                | Some m, Some n => SBool (N.ltb n m)
                | _, _ => SErr
                end
      end
  | _ => SErr
  end.

Definition fn_if (args : list scalar) : scalar :=
  match args with
  | [c; t; e] =>
      match as_bool c with
      | Some true => t
      | Some false => e
      | None => SErr
      end
  | [c; t] =>
      match as_bool c with
      | Some true => t
      | Some false => SBool false
      | None => SErr
      end
  | _ => SErr
  end.

Fixpoint fn_and (args : list scalar) : scalar :=
  match args with
  | [] => SBool true
  | a :: rest =>
      match as_bool a, fn_and rest with
      | Some x, SBool y => SBool (x && y)
      | _, _ => SErr
      end
  end.

Definition fn_concatenate (args : list scalar) : scalar :=
  if existsb is_err args then SErr
  else SStr (String.concat "" (map text_of args)).

Definition fn_iferror (args : list scalar) : scalar :=
  match args with
  | [v; alt] => if is_err v then alt else v
  | [v] => if is_err v then SBlank else v
  | _ => SErr
  end.

Definition matches (criterion x : scalar) : bool :=
  match same x criterion with Some b => b | None => false end.

(** COUNTIF(range, criterion): the number of cells of the range equal to
    the criterion. *)
Definition fn_countif (range : list scalar) (criterion : scalar) : scalar :=
  if is_err criterion then SErr
  else SNum (N.of_nat (List.length (filter (matches criterion) range))).

(** VLOOKUP(key, range, index, FALSE): the [index]-th cell of the first
    row of the range whose first cell equals the key. *)
Definition fn_vlookup (range : list (list scalar)) (index sorted : scalar)
                      (args : list scalar) : scalar :=
  match args, index, sorted with
  | [key], SNum k, SBool false =>
      match find (fun row => matches key (hd SErr row)) range with
      | Some row => nth (N.to_nat k - 1) row SErr
      | None => SErr
      end
  | _, _, _ => SErr
  end.

Definition is_null (row : list scalar) : bool :=
  match row with
  | SBlank :: _ | [] => true
  | _ => false
  end.

(** QUERY(data, "WHERE Col1 IS NOT NULL"): the rows of the data whose
    first column is not blank. *)
Definition fn_query (data : value) (query : scalar) : value :=
  match query with
  | SStr q =>
      if q =? "WHERE Col1 IS NOT NULL"
      then VArray (filter (fun row => negb (is_null row)) (rows_of data))
      else VScalar SErr
  | _ => VScalar SErr
  end.

(** { v1, v2, ... }: the columns of the arguments side by side. *)
Definition hconcat (vs : list value) : value :=
  match map rows_of vs with
  | [] => VScalar SErr
  | (r0 :: _) as rs =>
      let n := List.length r0 in
      if forallb (fun r => Nat.eqb (List.length r) n) rs
      then VArray (map (fun i => concat (map (fun r => nth i r []) rs)) (seq 0 n))
      else VScalar SErr
  end.

Definition apply (e : env) (f : func) (vs : list value) : value :=
  match f with
  | FIf => lift fn_if vs
  | FAnd => VScalar (fn_and (scalars vs))
  | FConcatenate => VScalar (fn_concatenate (scalars vs))
  | FCountif =>
      match vs with
      | [range; criterion] =>
          VScalar (fn_countif (scalars [range]) (item criterion 0 0))
      | _ => VScalar SErr
      end
  | FRow =>
      match vs with
      | [] => VScalar (SNum (N.of_nat (env_row e + env_fill e)))
      | _ => VScalar SErr
      end
  | FIferror => lift fn_iferror vs
  | FVlookup =>
      match vs with
      | [key; range; index; sorted] =>
          lift (fn_vlookup (rows_of range) (item index 0 0) (item sorted 0 0))
               [key]
      | _ => VScalar SErr
      end
  | FArrayformula =>
      match vs with
      | [v] => v
      | _ => VScalar SErr
      end
  | FQuery =>
      match vs with
      | [data; query] => fn_query data (item query 0 0)
      | _ => VScalar SErr
      end
  end.

Fixpoint eval (e : env) (x : expr) : value :=
  match x with
  | EStr s => VScalar (SStr s)
  | ENum n => VScalar (SNum n)
  | EBool b => VScalar (SBool b)
  | EBlank => VScalar SBlank
  | ERef sheet lo hi => eval_ref e sheet lo hi
  | ECmp op a b => lift (fn_cmp op) [eval e a; eval e b]
  | ECall f args => apply e f (map (eval e) args)
  | EArr columns => hconcat (map (eval e) columns)
  end.

(** What the cells filled by a formula show: the texts of its value.
    A formula text that does not parse shows an error. *)
Definition shown (e : env) (formula : string) : list (list string) :=
  match parse formula with
  | Some x => map (map text_of) (rows_of (eval e x))
  | None => [["#ERROR!"]]
  end.

(** The text shown by the cell itself (the top left of the value). *)
Definition shown_cell (e : env) (formula : string) : string :=
  match shown e formula with
  | (s :: _) :: _ => s
  | _ => ""
  end.

End Sheet.

(* ================================================================= *)
(** ** The formula texts of the scripts *)

Module Texts.

(** Python string literals are transcribed with the apostrophe standing
    for the double quote; [py] puts the double quotes back.  None of the
    transcribed literals contains an apostrophe of its own. *)
Fixpoint py (s : string) : string :=
  match s with
  | EmptyString => ""
  | String c t => String (if Ascii.eqb c "'" then "034"%char else c) (py t)
  end.

(** The lines of a triple-quoted literal, joined by newlines. *)
Fixpoint unlines (ls : list string) : string :=
  match ls with
  | [] => ""
  | [l] => l
  | l :: rest => (l ++ String "010" (unlines rest))%string
  end.

(** [formula_a2] of [setup_inventory_tab] (create_resale_sheet.py) and of
    [migrate_spreadsheet] (migrate_to_consolidated.py): the same text. *)
Definition formula_a2 : string :=
  py "=IF(AND(C2<>'', D2<>'', E2<>'', F2<>''), CONCATENATE(C2,'-',D2,'-',E2,'-',F2,'-',ROW()), '')".

(** [formula_i2] of [setup_inventory_tab]; [migrate_spreadsheet] holds the
    same text under the name [formula_j2]. *)
Definition formula_i2 : string :=
  py "=IF(A2='', '', IF(COUNTIF(Sales!$A:$A, A2) > 0, 'Sold', 'In Stock'))".

Definition formula_j2 : string := formula_i2.

(** [query_formula]; the three scripts that write it differ only in the
    last column of the Inventory range: [K] in create_resale_sheet.py and
    remove_condition_column.py, [L] in migrate_to_consolidated.py. *)
Definition query_formula_to (last_column : string) : string :=
  let lookup (n : string) :=
    ("        IFERROR(VLOOKUP(Sales!A2:A, Inventory!A:" ++ last_column ++
     ", " ++ n ++ ", FALSE), ''),")%string in
  py (unlines [
    "=QUERY(";
    "  ARRAYFORMULA(";
    "    IF(Sales!A2:A<>'',";
    "      {";
    "        Sales!A2:A,";
    lookup "3";
    lookup "4";
    lookup "5";
    lookup "6";
    "        Sales!E2:E,";
    "        Sales!F2:F,";
    "        Sales!B2:B,";
    "        Sales!G2:G,";
    "        Sales!H2:H";
    "      },";
    "    )";
    "  ),";
    "  'WHERE Col1 IS NOT NULL'";
    ")" ]).

Definition query_formula : string := query_formula_to "K".
Definition query_formula_migrate : string := query_formula_to "L".

End Texts.

(* ================================================================= *)
(** ** The cells the formulas are written to *)

Module Installed.
Import PyStr Formula Sheet Texts.

(** [range='Inventory!A2'] and [range='Inventory!I2'] (or [J2]): row 2 of
    the Inventory tab; [fill] rows further down when filled down. *)
Definition inventory_row2 (wb : workbook) (fill : nat) : env :=
  {| env_wb := wb; env_tab := "Inventory"; env_row := 2; env_fill := fill |}.

(** [range='Shipping Dashboard!A2'] *)
Definition dashboard_a2 (wb : workbook) : env :=
  {| env_wb := wb; env_tab := "Shipping Dashboard"; env_row := 2; env_fill := 0 |}.

(** The Item ID shown in column A of the Inventory row [2 + fill]. *)
Definition item_id (wb : workbook) (fill : nat) : string :=
  shown_cell (inventory_row2 wb fill) formula_a2.

(** The Status shown in that row. *)
Definition status (wb : workbook) (fill : nat) : string :=
  shown_cell (inventory_row2 wb fill) formula_i2.

(** The rows the Shipping Dashboard shows from row 2 on. *)
Definition dashboard (last_column : string) (wb : workbook) : list (list string) :=
  shown (dashboard_a2 wb) (query_formula_to last_column).

(** The syntax trees of the formula texts, as [parse] returns them. *)
Definition item_id_expr : expr :=
  Eval vm_compute in
    match parse formula_a2 with Some x => x | None => EBlank end.



Definition sales_column (c : nat) : expr :=
  ERef (Some "Sales")
    {| ep_col := c; ep_col_abs := false; ep_row := Some 2; ep_row_abs := false |}
    (Some {| ep_col := c; ep_col_abs := false; ep_row := None; ep_row_abs := false |}).

Definition inventory_columns (w : nat) : expr :=
  ERef (Some "Inventory")
    {| ep_col := 1; ep_col_abs := false; ep_row := None; ep_row_abs := false |}
    (Some {| ep_col := w; ep_col_abs := false; ep_row := None; ep_row_abs := false |}).

Definition lookup_expr (w : nat) (k : N) : expr :=
  ECall FIferror
    [ECall FVlookup [sales_column 1; inventory_columns w; ENum k; EBool false];
     EStr ""].

(** The syntax tree of [query_formula], for an Inventory range of [w]
    columns. *)
Definition query_expr (w : nat) : expr :=
  ECall FQuery
    [ECall FArrayformula
       [ECall FIf
          [ECmp OpNe (sales_column 1) (EStr "");
           EArr [sales_column 1;
                 lookup_expr w 3; lookup_expr w 4; lookup_expr w 5; lookup_expr w 6;
                 sales_column 5; sales_column 6; sales_column 2;
                 sales_column 7; sales_column 8];
           EBlank]];
     EStr "WHERE Col1 IS NOT NULL"].


End Installed.

(* ================================================================= *)
(** ** The Apps Script printed by create_inventory_form.py *)

Module AppsScript.
Import PyStr Sheet.

Definition has_content (row : list string) : bool :=
  existsb (fun s => negb (s =? "")) row.

Fixpoint last_content (g : grid) (position last : nat) : nat :=
  match g with
  | [] => last
  | row :: rest =>
      last_content rest (S position) (if has_content row then position else last)
  end.

(** [sheet.getLastRow()]: the position of the last row that has content,
    0 for an empty tab. *)
Definition getLastRow (g : grid) : nat := last_content g 1 0.

Fixpoint set_nth {A : Type} (l : list A) (i : nat) (filler x : A) : list A :=
  match i, l with
  | O, [] => [x]
  | O, _ :: t => x :: t
  | S k, [] => filler :: set_nth [] k filler x
  | S k, h :: t => h :: set_nth t k filler x
  end.

(** [sheet.getRange(r, c).setValue(v)], rows and columns counted from 1. *)
Definition setValue (g : grid) (r c : nat) (v : string) : grid :=
  set_nth g (r - 1) [] (set_nth (nth (r - 1) g []) (c - 1) "" v).

(** [category + "-" + brand + "-" + size + "-" + color + "-" + lastRow] *)
Definition itemId (g : grid) : string :=
  let lastRow := getLastRow g in
  let category := cell_at g lastRow 3 in
  let brand := cell_at g lastRow 4 in
  let size := cell_at g lastRow 5 in
  let color := cell_at g lastRow 6 in
  (category ++ "-" ++ brand ++ "-" ++ size ++ "-" ++ color ++ "-" ++
   of_N (N.of_nat lastRow))%string.

(** [onFormSubmit] on the Inventory tab; [None] when [getRange] throws
    because the tab has no row with content.  The number format set on
    the date cell leaves the texts unchanged. *)
Definition onFormSubmit (g : grid) : option grid :=
  let lastRow := getLastRow g in
  if Nat.eqb lastRow 0 then None
  else Some (setValue g lastRow 1 (itemId g)).

End AppsScript.

(* ================================================================= *)
(** ** The row transformation of migrate_to_consolidated.py *)

Module Migrate.

(** [while len(row) < 10: row.append('')] *)
Fixpoint pad_loop (fuel : nat) (row : list string) : list string :=
  match fuel with
  | O => row
  | S k =>
      if Nat.ltb (List.length row) 10 then pad_loop k (row ++ [""]) else row
  end.

(** Ten iterations are enough: each one adds a cell to a row of fewer
    than ten. *)
Definition pad (row : list string) : list string := pad_loop 10 row.

(** [row[0:9] + ['', '', row[9] if len(row) > 9 else '']] on the padded row *)
Definition migrated_row (row : list string) : list string :=
  let row := pad row in
  firstn 9 row ++
  [""; ""; if Nat.ltb 9 (List.length row) then nth 9 row "" else ""].

(** The loop over [purchases_rows]. *)
Definition migrated_rows (purchases_rows : list (list string)) : list (list string) :=
  map migrated_row purchases_rows.

End Migrate.

(* ================================================================= *)
(** ** The Google API requests the scripts build

    Bodies are transcribed field by field.  Left out: the cell formats
    of [repeatCell] and [addConditionalFormatRule] (their colours are
    floating point) and the Python-side [service] object, which only
    carries the credentials.  In [setDataValidation] an absent [strict]
    reads as [false]. *)

Module Api.

(** A [GridRange]; an absent index is [None]. *)
Record grid_range := {
  sheetId : N;
  startRowIndex : option nat;
  endRowIndex : option nat;
  startColumnIndex : option nat;
  endColumnIndex : option nat }.

(** One entry of a filter view's [criteria]: the column index and its
    [hiddenValues]. *)
Definition criteria := list (nat * list string).

(** The entries of a [spreadsheets.batchUpdate] body.  The scripts never
    build [addProtectedRange], the request that makes a range
    non-editable; it is listed so that this can be stated. *)
Inductive sheets_request :=
| setDataValidation (range : grid_range) (condition_type : string)
                    (values : list string) (showCustomUi strict : bool)
| repeatCell (range : grid_range) (fields : string)
| addConditionalFormatRule (range : grid_range) (formula : string) (index : nat)
| updateDimensionProperties (sheet : N) (dimension : string)
                            (startIndex endIndex pixelSize : nat)
| addFilterView (title : string) (range : grid_range) (crit : criteria)
| deleteFilterView (filterId : N)
| deleteSheet (sheet : N)
| deleteDimension (sheet : N) (dimension : string) (startIndex endIndex : nat)
| addProtectedRange (range : grid_range).

Inductive question :=
| textQuestion (paragraph : bool)
| choiceQuestion (type : string) (options : list string)
| dateQuestion (includeTime includeYear : bool).

(** The entries of a [forms.batchUpdate] body. *)
Inductive forms_request :=
| updateFormInfo (description updateMask : string)
| createItem (title : string) (description : option string)
             (required : bool) (q : question) (index : nat).

Inductive request :=
| spreadsheets_create (title : string) (sheets : list (string * nat))
| spreadsheets_get (spreadsheetId : string) (fields : option string)
| values_get (spreadsheetId range : string)
| values_update (spreadsheetId range valueInputOption : string)
                (values : list (list string))
| spreadsheets_batchUpdate (spreadsheetId : string) (requests : list sheets_request)
| forms_create (title documentTitle : string)
| forms_batchUpdate (formId : string) (requests : list forms_request).

Record filter_view := { fv_title : string; filterViewId : N }.

(** A sheet of a spreadsheet resource: [properties.title],
    [properties.sheetId] and [filterViews] (absent reads as empty). *)
Record sheet := {
  sheet_title : string;
  sheet_id : N;
  filterViews : list filter_view }.

(** A response body: a JSON object in which each key may be absent. *)
Record response := {
  r_spreadsheetId : option string;
  r_properties_title : option string;
  r_sheets : option (list sheet);
  r_values : option (list (list string));
  r_formId : option string }.

(** What [.execute()] does: return a body, raise [HttpError], or raise
    another exception (transport failures and the like). *)
Inductive reply :=
| Returned (body : response)
| HttpError (text : string)
| Failed (text : string).

(** What [get_credentials] does: return credentials, print
    "credentials.json not found" and [exit(1)], or raise (a failed
    refresh or consent flow). *)
Inductive auth_reply :=
| Granted
| NoCredentialsFile
| AuthFailed (text : string).

End Api.

(* ================================================================= *)
(** ** Scripts as programs over the API

    A script is a tree of effects: printing, reading a line, obtaining
    credentials, calling the API.  Python exceptions are [Raise];
    [exit(1)] is [Exit], which no [except Exception] catches.

    Of the printed lines the model keeps those of the failure and
    cancellation paths, the line with the spreadsheet URL and the Apps
    Script text; progress banners are left out.  A glyph outside ASCII
    stands in a line as its UTF-8 bytes. *)

Module Run.
Import Api.

Inductive exn :=
| HttpErr (text : string)        (* googleapiclient.errors.HttpError *)
| KeyError (key : string)
| EOFError
| OtherExn (text : string).

(** [str(e)] *)
Definition exn_text (e : exn) : string :=
  match e with
  | HttpErr t => t
  | KeyError k => ("'" ++ k ++ "'")%string
  | EOFError => "EOF when reading a line"
  | OtherExn t => t
  end.

Inductive prog (A : Type) : Type :=
| Ret (a : A)
| Raise (e : exn)
| Exit (code : nat)
| Print (line : string) (k : prog A)
| Input (prompt : string) (k : option string -> prog A)
| Authenticate (scopes : list string) (k : auth_reply -> prog A)
| Call (r : request) (k : reply -> prog A).

Arguments Ret {A} a.
Arguments Raise {A} e.
Arguments Exit {A} code.
Arguments Print {A} line k.
Arguments Input {A} prompt k.
Arguments Authenticate {A} scopes k.
Arguments Call {A} r k.

Fixpoint bind {A B : Type} (p : prog A) (f : A -> prog B) : prog B :=
  match p with
  | Ret a => f a
  | Raise e => Raise e
  | Exit c => Exit c
  | Print l k => Print l (bind k f)
  | Input pr k => Input pr (fun o => bind (k o) f)
  | Authenticate sc k => Authenticate sc (fun r => bind (k r) f)
  | Call r k => Call r (fun x => bind (k x) f)
  end.

Notation "x <- p ;; q" := (bind p (fun x => q))
  (at level 61, p at next level, right associativity).
Notation "p ;; q" := (bind p (fun _ => q))
  (at level 61, right associativity).

(** [try: body except <classes>: handler]; the handler raises again the
    exceptions of the classes it does not name. *)
Fixpoint try_except {A : Type} (body : prog A) (handler : exn -> prog A) : prog A :=
  match body with
  | Ret a => Ret a
  | Raise e => handler e
  | Exit c => Exit c
  | Print l k => Print l (try_except k handler)
  | Input pr k => Input pr (fun o => try_except (k o) handler)
  | Authenticate sc k => Authenticate sc (fun r => try_except (k r) handler)
  | Call r k => Call r (fun x => try_except (k x) handler)
  end.

Definition print (line : string) : prog unit := Print line (Ret tt).

(** [input(prompt)] *)
Definition input (prompt : string) : prog string :=
  Input prompt (fun o =>
    match o with
    | Some line => Ret line
    | None => Raise EOFError
    end).

(** [request.execute()] *)
Definition execute (r : request) : prog response :=
  Call r (fun x =>
    match x with
    | Returned body => Ret body
    | HttpError t => Raise (HttpErr t)
    | Failed t => Raise (OtherExn t)
    end).

(** [d[key]] on a response body *)
Definition field {A : Type} (key : string) (o : option A) : prog A :=
  match o with
  | Some a => Ret a
  | None => Raise (KeyError key)
  end.

Definition newline : string := String "010" "".

(** [get_credentials()]; [more] are the lines that the copy of
    create_resale_sheet.py prints after the first one. *)
Definition get_credentials (scopes more : list string) : prog unit :=
  Authenticate scopes (fun r =>
    match r with
    | Granted => Ret tt
    | NoCredentialsFile =>
        print (newline ++ "Error: credentials.json not found!") ;;
        fold_right (fun l k => print l ;; k) (Exit 1) more
    | AuthFailed t => Raise (OtherExn t)
    end).

(** *** Running a program *)

(** The outside of a run: the lines the operator types, what
    authentication does, and what the service answers to the [n]-th
    call. *)
Record world := {
  stdin : list string;
  auth : auth_reply;
  replies : nat -> request -> reply }.

Inductive event :=
| Printed (line : string)
| Asked (prompt : string) (answer : option string)
| Authenticated (scopes : list string) (r : auth_reply)
| Called (r : request) (x : reply).

Inductive ending :=
| Finished
| Exited (code : nat)
| Uncaught (e : exn).

Fixpoint run_from {A : Type} (p : prog A) (w : world)
         (lines : list string) (n : nat) : list event * ending :=
  match p with
  | Ret _ => ([], Finished)
  | Raise e => ([], Uncaught e)
  | Exit c => ([], Exited c)
  | Print l k =>
      let (t, e) := run_from k w lines n in (Printed l :: t, e)
  | Input pr k =>
      match lines with
      | [] => let (t, e) := run_from (k None) w [] n in (Asked pr None :: t, e)
      | l :: rest =>
          let (t, e) := run_from (k (Some l)) w rest n in
          (Asked pr (Some l) :: t, e)
      end
  | Authenticate sc k =>
      let (t, e) := run_from (k (auth w)) w lines n in
      (Authenticated sc (auth w) :: t, e)
  | Call r k =>
      let x := replies w n r in
      let (t, e) := run_from (k x) w lines (S n) in
      (Called r x :: t, e)
  end.

Definition run {A : Type} (p : prog A) (w : world) : list event * ending :=
  run_from p w (stdin w) 0.

(** The API calls of a trace, in order. *)
Fixpoint calls (t : list event) : list (request * reply) :=
  match t with
  | [] => []
  | Called r x :: rest => (r, x) :: calls rest
  | _ :: rest => calls rest
  end.

Fixpoint printed (t : list event) : list string :=
  match t with
  | [] => []
  | Printed l :: rest => l :: printed rest
  | _ :: rest => printed rest
  end.

Definition authenticated (t : list event) : bool :=
  existsb (fun e => match e with Authenticated _ Granted => true | _ => false end) t.

End Run.

(* ================================================================= *)
(** ** What the scripts share

    Every script that calls the API carries its own copy of
    [get_sheet_ids] and of the prompt for the spreadsheet ID; the copies
    are the same text. *)

Module Common.
Import PyStr SpreadsheetId Api Run.

(** A Python [dict] from tab titles to sheet IDs, in insertion order. *)
Definition dict := list (string * N).

Fixpoint dict_set (d : dict) (key : string) (v : N) : dict :=
  match d with
  | [] => [(key, v)]
  | (k, x) :: rest =>
      if k =? key then (k, v) :: rest else (k, x) :: dict_set rest key v
  end.

Fixpoint dict_get (d : dict) (key : string) : option N :=
  match d with
  | [] => None
  | (k, x) :: rest => if k =? key then Some x else dict_get rest key
  end.

(** [key in d] *)
Definition dict_has (d : dict) (key : string) : bool :=
  match dict_get d key with Some _ => true | None => false end.

(** [d[key]] *)
Definition subscript (d : dict) (key : string) : prog N :=
  field key (dict_get d key).

Definition get_sheet_ids (spreadsheet_id : string) : prog dict :=
  sheet_metadata <- execute (spreadsheets_get spreadsheet_id None) ;;
  let sheets := match r_sheets sheet_metadata with Some l => l | None => [] end in
  Ret (fold_left (fun d s => dict_set d (sheet_title s) (sheet_id s)) sheets []).

(** [sys.argv[1]] when there is one, the prompt otherwise. *)
Definition read_spreadsheet_id (sys_argv : list string) : prog string :=
  match sys_argv with
  | _ :: arg :: _ => Ret arg
  | _ =>
      line <- input "URL or ID: " ;;
      match parse_input line with
      | Some spreadsheet_id => Ret spreadsheet_id
      | None =>
          print "Error: Could not parse spreadsheet ID from URL" ;;
          Exit 1
      end
  end.

Definition cells (sheet : N) (r1 : nat) (r2 : option nat) (c1 c2 : nat) : grid_range :=
  {| sheetId := sheet;
     startRowIndex := Some r1; endRowIndex := r2;
     startColumnIndex := Some c1; endColumnIndex := Some c2 |}.

(** A dropdown on rows 2 to 1000 of one column. *)
Definition dropdown (sheet : N) (column : nat) (condition_type : string)
                    (values : list string) (strict : bool) : sheets_request :=
  setDataValidation (cells sheet 1 (Some 1000) column (S column))
                    condition_type values true strict.

(** The three Inventory filter views over the columns [0..width), with
    the criteria on column [status]. *)
Definition inventory_filter_views (sheet : N) (width status : nat) : list sheets_request :=
  [ addFilterView "In Stock" (cells sheet 0 None 0 width) [(status, ["Sold"])];
    addFilterView "Sold" (cells sheet 0 None 0 width) [(status, ["In Stock"])];
    addFilterView "All Statuses" (cells sheet 0 None 0 width) [] ].

Definition size_values : list string := ["XS"; "S"; "M"; "L"; "XL"; "XXL"].
Definition location_values : list string := ["Zach's garage"; "Adi's garage"].

End Common.

(* ================================================================= *)
(** ** create_resale_sheet.py *)

Module CreateResaleSheet.
Import PyStr SpreadsheetId Api Run Common Texts.

Definition SCOPES : list string :=
  ["https://www.googleapis.com/auth/spreadsheets";
   "https://www.googleapis.com/auth/drive.file"].

Definition create_spreadsheet : prog string :=
  spreadsheet <- execute
    (spreadsheets_create "Clothing Resale Business"
       [("Inventory", 1); ("Sales", 1); ("Shipping Dashboard", 1)]) ;;
  spreadsheet_id <- field "spreadsheetId" (r_spreadsheetId spreadsheet) ;;
  _ <- field "title" (r_properties_title spreadsheet) ;;
  Ret spreadsheet_id.

Definition inventory_headers : list string :=
  ["Item ID"; "UPC"; "Category"; "Brand"; "Size"; "Color";
   "Cost"; "Date Purchased"; "Status"; "Location"; "Notes"].

Definition setup_inventory_tab (spreadsheet_id : string) : prog unit :=
  execute (values_update spreadsheet_id "Inventory!A1:K1" "RAW" [inventory_headers]) ;;
  execute (values_update spreadsheet_id "Inventory!A2" "USER_ENTERED" [[formula_a2]]) ;;
  execute (values_update spreadsheet_id "Inventory!I2" "USER_ENTERED" [[formula_i2]]) ;;
  Ret tt.

Definition sales_headers : list string :=
  ["Item ID"; "Sale Price"; "Date Sold"; "Sold By"; "Buyer";
   "Platform"; "Shipping Status"; "Tracking Number"; "Notes"].

Definition setup_sales_tab (spreadsheet_id : string) : prog unit :=
  execute (values_update spreadsheet_id "Sales!A1:I1" "RAW" [sales_headers]) ;;
  Ret tt.

Definition dashboard_headers : list string :=
  ["Item ID"; "Category"; "Brand"; "Size"; "Color"; "Buyer";
   "Platform"; "Sale Price"; "Shipping Status"; "Tracking Number"].

Definition setup_shipping_dashboard (spreadsheet_id : string) : prog unit :=
  execute (values_update spreadsheet_id "Shipping Dashboard!A1:J1" "RAW"
             [dashboard_headers]) ;;
  execute (values_update spreadsheet_id "Shipping Dashboard!A2" "USER_ENTERED"
             [[query_formula]]) ;;
  Ret tt.

Definition apply_data_validations (spreadsheet_id : string) (sheet_ids : dict) : prog unit :=
  inventory_sheet_id <- subscript sheet_ids "Inventory" ;;
  sales_sheet_id <- subscript sheet_ids "Sales" ;;
  execute (spreadsheets_batchUpdate spreadsheet_id
    [ dropdown inventory_sheet_id 4 "ONE_OF_LIST" size_values false;
      dropdown inventory_sheet_id 9 "ONE_OF_LIST" location_values false;
      dropdown sales_sheet_id 0 "ONE_OF_RANGE" ["=Inventory!$A$2:$A$1000"] true;
      dropdown sales_sheet_id 3 "ONE_OF_LIST" ["Zach"; "Adi"] false;
      dropdown sales_sheet_id 5 "ONE_OF_LIST" ["Depop"; "eBay"; "local"] false;
      dropdown sales_sheet_id 6 "ONE_OF_LIST"
        ["needs to ship"; "shipped"; "delivered"; "local pickup (no shipping)"]
        false ]) ;;
  Ret tt.

Definition rows_of_sheet (sheet : N) (r1 : nat) (r2 : nat) : grid_range :=
  {| sheetId := sheet;
     startRowIndex := Some r1; endRowIndex := Some r2;
     startColumnIndex := None; endColumnIndex := None |}.

(** The two requests of the loop over [sheet_ids.items()]. *)
Definition header_format (sheet : N) : list sheets_request :=
  [ repeatCell (rows_of_sheet sheet 0 1)
      "userEnteredFormat(backgroundColor,textFormat,horizontalAlignment)";
    addConditionalFormatRule (rows_of_sheet sheet 1 1000) "=ISEVEN(ROW())" 0 ].

Definition width (sheet : N) (startIndex endIndex pixelSize : nat) : sheets_request :=
  updateDimensionProperties sheet "COLUMNS" startIndex endIndex pixelSize.

Definition apply_formatting (spreadsheet_id : string) (sheet_ids : dict) : prog unit :=
  let headers := concat (map (fun kv => header_format (snd kv)) sheet_ids) in
  inventory <- subscript sheet_ids "Inventory" ;;
  sales <- subscript sheet_ids "Sales" ;;
  dashboard <- subscript sheet_ids "Shipping Dashboard" ;;
  execute (spreadsheets_batchUpdate spreadsheet_id
    (headers ++
     [ width inventory 0 1 150; width inventory 1 2 120; width inventory 2 7 100;
       width inventory 7 8 120; width inventory 8 9 100; width inventory 9 10 150;
       width inventory 10 11 200 ] ++
     [ width sales 0 1 150; width sales 1 3 100; width sales 3 7 120;
       width sales 7 8 150; width sales 8 9 200 ] ++
     [ width dashboard 0 1 150; width dashboard 1 8 100;
       width dashboard 8 9 130; width dashboard 9 10 150 ])) ;;
  Ret tt.

(** "Status column is I (index 8)" *)
Definition create_inventory_filters (spreadsheet_id : string) (sheet_ids : dict) : prog unit :=
  inventory_sheet_id <- subscript sheet_ids "Inventory" ;;
  execute (spreadsheets_batchUpdate spreadsheet_id
             (inventory_filter_views inventory_sheet_id 11 8)) ;;
  Ret tt.

Definition create_shipping_filter (spreadsheet_id : string) (sheet_ids : dict) : prog unit :=
  shipping_sheet_id <- subscript sheet_ids "Shipping Dashboard" ;;
  execute (spreadsheets_batchUpdate spreadsheet_id
    [ addFilterView "Outstanding Shipments" (cells shipping_sheet_id 0 None 0 10)
        [(8, ["delivered"; "local pickup (no shipping)"])] ]) ;;
  Ret tt.

Definition on_error (e : exn) : prog unit :=
  match e with
  | HttpErr t =>
      print (newline ++ "Error: " ++ t) ;;
      if contains "credentials.json" t
      then print (newline ++ "Make sure you've created credentials.json following the README instructions.")
      else Ret tt
  | _ =>
      print (newline ++ "Unexpected error: " ++ exn_text e) ;;
      Raise e
  end.

Definition main : prog unit :=
  try_except
    (get_credentials SCOPES
       ["Please follow the setup instructions in README.md";
        "to create OAuth credentials and download them as credentials.json"] ;;
     spreadsheet_id <- create_spreadsheet ;;
     sheet_ids <- get_sheet_ids spreadsheet_id ;;
     setup_inventory_tab spreadsheet_id ;;
     setup_sales_tab spreadsheet_id ;;
     setup_shipping_dashboard spreadsheet_id ;;
     apply_data_validations spreadsheet_id sheet_ids ;;
     apply_formatting spreadsheet_id sheet_ids ;;
     create_inventory_filters spreadsheet_id sheet_ids ;;
     create_shipping_filter spreadsheet_id sheet_ids ;;
     print (newline ++ "Spreadsheet URL:" ++ newline ++ spreadsheet_url spreadsheet_id))
    on_error.

End CreateResaleSheet.

(* ================================================================= *)
(** ** migrate_to_consolidated.py *)

Module MigrateToConsolidated.
Import PyStr SpreadsheetId Api Run Common Texts Migrate.

Definition SCOPES : list string :=
  ["https://www.googleapis.com/auth/spreadsheets"].

Definition new_headers : list string :=
  ["Item ID"; "UPC"; "Category"; "Brand"; "Size"; "Color";
   "Cost"; "Date Purchased"; "Condition"; "Status"; "Location"; "Notes"].

Definition migrate_spreadsheet (spreadsheet_id : string) : prog bool :=
  sheet_ids <- get_sheet_ids spreadsheet_id ;;
  if negb (dict_has sheet_ids "Purchases") then
    print "✓ No Purchases tab found - already migrated or doesn't exist" ;;
    Ret false
  else if negb (dict_has sheet_ids "Inventory") then
    print "✗ Error: Inventory tab not found!" ;;
    Ret false
  else
    purchases_sheet_id <- subscript sheet_ids "Purchases" ;;
    inventory_sheet_id <- subscript sheet_ids "Inventory" ;;
    purchases_data <- execute (values_get spreadsheet_id "Purchases!A2:J1000") ;;
    let purchases_rows :=
      match r_values purchases_data with Some v => v | None => [] end in
    execute (values_update spreadsheet_id "Inventory!A1:L1" "RAW" [new_headers]) ;;
    match purchases_rows with
     | [] => Ret tt
     | _ =>
         execute (values_update spreadsheet_id "Inventory!A2" "RAW"
                    (migrated_rows purchases_rows)) ;;
         Ret tt
     end ;;
    execute (values_update spreadsheet_id "Inventory!A2" "USER_ENTERED" [[formula_a2]]) ;;
    execute (values_update spreadsheet_id "Inventory!J2" "USER_ENTERED" [[formula_j2]]) ;;
    execute (values_update spreadsheet_id "Shipping Dashboard!A2" "USER_ENTERED"
               [[query_formula_migrate]]) ;;
    execute (spreadsheets_batchUpdate spreadsheet_id
      [ dropdown inventory_sheet_id 4 "ONE_OF_LIST" size_values false;
        dropdown inventory_sheet_id 8 "ONE_OF_LIST"
          ["New"; "Like New"; "Good"; "Fair"] false;
        dropdown inventory_sheet_id 10 "ONE_OF_LIST" location_values false ]) ;;
    execute (spreadsheets_batchUpdate spreadsheet_id [deleteSheet purchases_sheet_id]) ;;
    Ret true.

Definition confirm_prompt : string := newline ++ "Proceed with migration? (yes/no): ".

Definition on_error (e : exn) : prog unit :=
  match e with
  | HttpErr t =>
      print (newline ++ "Error: " ++ t) ;;
      if contains "404" t
      then print (newline ++ "Make sure:") ;;
           print "1. The spreadsheet ID is correct" ;;
           print "2. You have access to the spreadsheet"
      else Ret tt
  | _ =>
      print (newline ++ "Unexpected error: " ++ exn_text e) ;;
      Raise e
  end.

Definition main (sys_argv : list string) : prog unit :=
  spreadsheet_id <- read_spreadsheet_id sys_argv ;;
  answer <- input confirm_prompt ;;
  let confirm := lower (strip answer) in
  if negb (mem confirm ["yes"; "y"]) then
    print "Migration cancelled."
  else
    try_except
      (get_credentials SCOPES [] ;;
       migrated <- migrate_spreadsheet spreadsheet_id ;;
       if migrated : bool
       then print (newline ++ "View your updated sheet: " ++ spreadsheet_url spreadsheet_id)
       else print (newline ++ "✗ Migration not needed or failed. Check messages above."))
      on_error.

End MigrateToConsolidated.

(* ================================================================= *)
(** ** remove_condition_column.py *)

Module RemoveConditionColumn.
Import PyStr SpreadsheetId Api Run Common Texts.

Definition SCOPES : list string :=
  ["https://www.googleapis.com/auth/spreadsheets"].

(** The filter views the script deletes: those of the Inventory tab
    titled In Stock, Sold or All Statuses. *)
Definition stale_filter_views (sheets : list sheet) : list sheets_request :=
  concat (map (fun s =>
    if sheet_title s =? "Inventory"
    then concat (map (fun fv =>
           if mem (fv_title fv) ["In Stock"; "Sold"; "All Statuses"]
           then [deleteFilterView (filterViewId fv)]
           else []) (filterViews s))
    else []) sheets).

Definition remove_condition_column (spreadsheet_id : string) : prog bool :=
  sheet_ids <- get_sheet_ids spreadsheet_id ;;
  if negb (dict_has sheet_ids "Inventory") then
    print "✗ Error: Inventory tab not found!" ;;
    Ret false
  else
    inventory_sheet_id <- subscript sheet_ids "Inventory" ;;
    execute (spreadsheets_batchUpdate spreadsheet_id
               [deleteDimension inventory_sheet_id "COLUMNS" 8 9]) ;;
    execute (values_update spreadsheet_id "Shipping Dashboard!A2" "USER_ENTERED"
               [[query_formula]]) ;;
    sheet_metadata <- execute
      (spreadsheets_get spreadsheet_id (Some "sheets(properties,filterViews)")) ;;
    let requests :=
      stale_filter_views
        (match r_sheets sheet_metadata with Some l => l | None => [] end) in
    match requests with
     | [] => Ret tt
     | _ => execute (spreadsheets_batchUpdate spreadsheet_id requests) ;; Ret tt
     end ;;
    execute (spreadsheets_batchUpdate spreadsheet_id
               (inventory_filter_views inventory_sheet_id 11 8)) ;;
    Ret true.

Definition confirm_prompt : string := newline ++ "Proceed? (yes/no): ".

Definition on_error (e : exn) : prog unit :=
  match e with
  | HttpErr t => print (newline ++ "Error: " ++ t)
  | _ =>
      print (newline ++ "Unexpected error: " ++ exn_text e) ;;
      Raise e
  end.

Definition main (sys_argv : list string) : prog unit :=
  spreadsheet_id <- read_spreadsheet_id sys_argv ;;
  answer <- input confirm_prompt ;;
  let confirm := lower (strip answer) in
  if negb (mem confirm ["yes"; "y"]) then
    print "Cancelled."
  else
    try_except
      (get_credentials SCOPES [] ;;
       removed <- remove_condition_column spreadsheet_id ;;
       if removed : bool
       then print (newline ++ "View your updated sheet: " ++ spreadsheet_url spreadsheet_id)
       else Ret tt)
      on_error.

End RemoveConditionColumn.

(* ================================================================= *)
(** ** add_inventory_filters.py *)

Module AddInventoryFilters.
Import PyStr SpreadsheetId Api Run Common.

Definition SCOPES : list string :=
  ["https://www.googleapis.com/auth/spreadsheets"].

(** "Status column is H (index 7)"; the range is "All columns A-I". *)
Definition add_inventory_filters (spreadsheet_id : string) : prog bool :=
  sheet_ids <- get_sheet_ids spreadsheet_id ;;
  if negb (dict_has sheet_ids "Inventory") then
    print "Error: 'Inventory' tab not found in spreadsheet!" ;;
    Ret false
  else
    inventory_sheet_id <- subscript sheet_ids "Inventory" ;;
    execute (spreadsheets_batchUpdate spreadsheet_id
               (inventory_filter_views inventory_sheet_id 9 7)) ;;
    Ret true.

(** Both [except] clauses print and return; nothing is raised again. *)
Definition on_error (e : exn) : prog unit :=
  match e with
  | HttpErr t =>
      print (newline ++ "Error: " ++ t) ;;
      if contains "404" t
      then print (newline ++ "Make sure:") ;;
           print "1. The spreadsheet ID is correct" ;;
           print "2. You have access to the spreadsheet"
      else if contains "already exists" (lower t)
      then print (newline ++ "The filter views may already exist in this spreadsheet.")
      else Ret tt
  | _ => print (newline ++ "Unexpected error: " ++ exn_text e)
  end.

Definition main (sys_argv : list string) : prog unit :=
  spreadsheet_id <- read_spreadsheet_id sys_argv ;;
  try_except
    (get_credentials SCOPES [] ;;
     added <- add_inventory_filters spreadsheet_id ;;
     if added : bool
     then print (newline ++ "View your sheet: " ++ spreadsheet_url spreadsheet_id)
     else print (newline ++ "✗ Failed to add filters. Check error messages above."))
    on_error.

End AddInventoryFilters.

(* ================================================================= *)
(** ** add_item_id_dropdown.py *)

Module AddItemIdDropdown.
Import PyStr SpreadsheetId Api Run Common.

Definition SCOPES : list string :=
  ["https://www.googleapis.com/auth/spreadsheets"].

Definition add_item_id_validation (spreadsheet_id : string) : prog bool :=
  sheet_ids <- get_sheet_ids spreadsheet_id ;;
  if negb (dict_has sheet_ids "Sales") then
    print "Error: 'Sales' tab not found in spreadsheet!" ;;
    Ret false
  else if negb (dict_has sheet_ids "Inventory") then
    print "Error: 'Inventory' tab not found in spreadsheet!" ;;
    Ret false
  else
    sales_sheet_id <- subscript sheet_ids "Sales" ;;
    execute (spreadsheets_batchUpdate spreadsheet_id
      [ dropdown sales_sheet_id 0 "ONE_OF_RANGE" ["=Inventory!$A$2:$A$1000"] true ]) ;;
    Ret true.

Definition on_error (e : exn) : prog unit :=
  match e with
  | HttpErr t =>
      print (newline ++ "Error: " ++ t) ;;
      if contains "404" t
      then print (newline ++ "Make sure:") ;;
           print "1. The spreadsheet ID is correct" ;;
           print "2. You have access to the spreadsheet"
      else Ret tt
  | _ => print (newline ++ "Unexpected error: " ++ exn_text e)
  end.

Definition main (sys_argv : list string) : prog unit :=
  spreadsheet_id <- read_spreadsheet_id sys_argv ;;
  try_except
    (get_credentials SCOPES [] ;;
     added <- add_item_id_validation spreadsheet_id ;;
     if added : bool
     then print (newline ++ "View your sheet: " ++ spreadsheet_url spreadsheet_id)
     else print (newline ++ "✗ Failed to add validation. Check error messages above."))
    on_error.

End AddItemIdDropdown.

(* ================================================================= *)
(** ** create_inventory_form.py *)

Module CreateInventoryForm.
Import PyStr SpreadsheetId Api Run Common Texts.

Definition SCOPES : list string :=
  ["https://www.googleapis.com/auth/forms.body";
   "https://www.googleapis.com/auth/drive";
   "https://www.googleapis.com/auth/spreadsheets"].

Definition form_fields : list forms_request :=
  [ updateFormInfo
      "Add new items to your clothing resale inventory. Item ID and Status will be automatically generated."
      "description";
    createItem "UPC" (Some "Barcode number (optional)") false (textQuestion false) 0;
    createItem "Category" (Some "e.g., Hoodie, Jacket, Tee, Pants, Shoes") true
               (textQuestion false) 1;
    createItem "Brand" (Some "Brand name") true (textQuestion false) 2;
    createItem "Size" None true (choiceQuestion "DROP_DOWN" size_values) 3;
    createItem "Color" (Some "Primary color") true (textQuestion false) 4;
    createItem "Cost" (Some "Purchase price (numbers only)") true (textQuestion false) 5;
    createItem "Date Purchased" None true (dateQuestion false true) 6;
    createItem "Location" (Some "Where is this item stored?") false
               (choiceQuestion "DROP_DOWN" location_values) 7;
    createItem "Notes" (Some "Any additional details (optional)") false
               (textQuestion true) 8 ].

(** Returns [form_id]; the two URLs are built from it. *)
Definition create_form_for_inventory (spreadsheet_id : string) : prog string :=
  result <- execute (forms_create "Add Inventory Item" "Clothing Resale - Add Inventory") ;;
  form_id <- field "formId" (r_formId result) ;;
  execute (forms_batchUpdate form_id form_fields) ;;
  Ret form_id.

(** The text of [script] in [create_apps_script_instructions]. *)
Definition script : string :=
  py (unlines [
    "";
    "function onFormSubmit(e) {";
    "  var sheet = SpreadsheetApp.getActiveSpreadsheet().getSheetByName('Inventory');";
    "  ";
    "  // Get the last row (the newly added form response)";
    "  var lastRow = sheet.getLastRow();";
    "  ";
    "  // Get the values from the form submission";
    "  var category = sheet.getRange(lastRow, 3).getValue();  // Column C";
    "  var brand = sheet.getRange(lastRow, 4).getValue();     // Column D";
    "  var size = sheet.getRange(lastRow, 5).getValue();      // Column E";
    "  var color = sheet.getRange(lastRow, 6).getValue();     // Column F";
    "  ";
    "  // Generate Item ID: Category-Brand-Size-Color-Row";
    "  var itemId = category + '-' + brand + '-' + size + '-' + color + '-' + lastRow;";
    "  ";
    "  // Set the Item ID in column A";
    "  sheet.getRange(lastRow, 1).setValue(itemId);";
    "  ";
    "  // Format date in column H if needed";
    "  var dateCell = sheet.getRange(lastRow, 8);";
    "  var dateValue = dateCell.getValue();";
    "  if (dateValue) {";
    "    dateCell.setNumberFormat('MM/dd/yyyy');";
    "  }";
    "  ";
    "  // Status formula will auto-calculate via the formula in column I";
    "  // Location is in column J from the form";
    "  // Notes is in column K from the form";
    "}";
    "" ]).

Definition create_apps_script_instructions (spreadsheet_id : string) : prog unit :=
  print (newline ++ "1. Open your spreadsheet: " ++ spreadsheet_url spreadsheet_id) ;;
  print script.

Definition on_error (e : exn) : prog unit :=
  match e with
  | HttpErr t =>
      print (newline ++ "Error: " ++ t) ;;
      if contains "403" t
      then print (newline ++ "Make sure:") ;;
           print "1. Google Forms API is enabled in Google Cloud Console" ;;
           print "2. You've authorized the necessary scopes"
      else Ret tt
  | _ =>
      print (newline ++ "Unexpected error: " ++ exn_text e) ;;
      Raise e
  end.

Definition main (sys_argv : list string) : prog unit :=
  spreadsheet_id <- read_spreadsheet_id sys_argv ;;
  try_except
    (get_credentials SCOPES [] ;;
     _ <- create_form_for_inventory spreadsheet_id ;;
     create_apps_script_instructions spreadsheet_id)
    on_error.

End CreateInventoryForm.

(* ================================================================= *)
(** ** add_essentials_hoodie.py *)

Module AddEssentialsHoodie.
Import PyStr Api Run.
Local Open Scope string_scope.

Definition SPREADSHEET_ID : string := "YOUR_SPREADSHEET_ID_HERE".
Definition SHEET_NAME : string := "Consolidated Inventory".

(** The [item] dictionary, in insertion order. *)
Definition item : list (string * string) :=
  [ ("Item ID", "ESS-HOODIE-XL-OATMEAL-001");
    ("UPC", "460035734583");
    ("Category", "Hoodie");
    ("Brand", "Essentials");
    ("Size", "XL");
    ("Color", "Light Oatmeal");
    ("Cost", "65.00");
    ("Date Purchased", "");
    ("Status", "In Stock");
    ("Location", "Inventory");
    ("Notes", "Added via script for barcode scanning") ].

(** [item.get(col, '')] *)
Fixpoint item_get (d : list (string * string)) (key : string) : string :=
  match d with
  | [] => ""
  | (k, v) :: rest => if k =? key then v else item_get rest key
  end.

(** [get_sheets_service()]: defined by the script, called by nothing. *)
Definition get_sheets_service : prog unit :=
  Authenticate ["https://www.googleapis.com/auth/spreadsheets"] (fun r =>
    match r with
    | Granted => Ret tt
    | NoCredentialsFile =>
        print "ERROR: credentials.json not found" ;;
        print "You need to set up Google Sheets API credentials" ;;
        Exit 1
    | AuthFailed t => Raise (OtherExn t)
    end).

Definition columns : list string :=
  ["Item ID"; "UPC"; "Category"; "Brand"; "Size"; "Color";
   "Cost"; "Date Purchased"; "Status"; "Location"; "Notes"].

Fixpoint print_all (lines : list string) : prog unit :=
  match lines with
  | [] => Ret tt
  | l :: rest => print l ;; print_all rest
  end.

Definition rule : string :=
  "======================================================================".

(** "Manual instructions (safer than running the script)": [main] only
    prints. *)
Definition main : prog unit :=
  print_all [rule; "ADD ESSENTIALS HOODIE TO INVENTORY"; rule;
             newline ++ "Item Details:"] ;;
  print_all (map (fun kv => "  " ++ fst kv ++ ": " ++ snd kv) item) ;;
  print_all [newline ++ rule;
             newline ++ "📋 MANUAL STEPS TO ADD THIS ITEM:" ++ newline;
             "1. Open your Google Sheets 'Consolidated Inventory'";
             "2. Find the next empty row";
             "3. Add a new row with these values:" ++ newline] ;;
  print_all (map (fun col => "   " ++ col ++ ": " ++ item_get item col) columns) ;;
  print_all [newline ++ "4. IMPORTANT: Make sure the UPC is exactly: 460035734583";
             "   - No spaces, dashes, or extra characters";
             "   - Format the cell as 'Plain text' (not number) to preserve leading zeros";
             newline ++ "5. Save the sheet";
             "6. Refresh your sales app (reload the page)";
             "7. Try scanning again!";
             newline ++ rule;
             newline ++ "💡 TIPS:";
             "  • Make sure the UPC column is formatted as TEXT, not NUMBER";
             "  • Double-check there are no extra spaces before/after the UPC";
             "  • The Status must be 'In Stock' for the item to appear";
             "  • If you have multiple items with the same details, each needs a unique Item ID";
             newline ++ rule].

End AddEssentialsHoodie.

(* ================================================================= *)
(** ** The seven scripts *)

Module Repository.
Import Api Run.

Inductive script :=
| create_resale_sheet
| create_inventory_form
| migrate_to_consolidated
| remove_condition_column
| add_inventory_filters
| add_item_id_dropdown
| add_essentials_hoodie.

Definition all_scripts : list script :=
  [create_resale_sheet; create_inventory_form; migrate_to_consolidated;
   remove_condition_column; add_inventory_filters; add_item_id_dropdown;
   add_essentials_hoodie].

(** [python <script>.py <args>]: the [main] of the script, given
    [sys.argv]. *)
Definition main (s : script) (sys_argv : list string) : prog unit :=
  match s with
  | create_resale_sheet => CreateResaleSheet.main
  | create_inventory_form => CreateInventoryForm.main sys_argv
  | migrate_to_consolidated => MigrateToConsolidated.main sys_argv
  | remove_condition_column => RemoveConditionColumn.main sys_argv
  | add_inventory_filters => AddInventoryFilters.main sys_argv
  | add_item_id_dropdown => AddItemIdDropdown.main sys_argv
  | add_essentials_hoodie => AddEssentialsHoodie.main
  end.

(** The trace and the ending of a run. *)
Definition trace (s : script) (sys_argv : list string) (w : world) : list event :=
  fst (run (main s sys_argv) w).

Definition ending_of (s : script) (sys_argv : list string) (w : world) : ending :=
  snd (run (main s sys_argv) w).

(** The scripts that change an existing spreadsheet after asking. *)
Definition confirm_prompt (s : script) : option string :=
  match s with
  | migrate_to_consolidated => Some MigrateToConsolidated.confirm_prompt
  | remove_condition_column => Some RemoveConditionColumn.confirm_prompt
  | _ => None
  end.

(** The entries of all [spreadsheets.batchUpdate] calls of a trace. *)
Definition batch_entries (t : list event) : list sheets_request :=
  concat (map (fun c =>
    match fst c with
    | spreadsheets_batchUpdate _ requests => requests
    | _ => []
    end) (calls t)).


Definition is_filter_view (r : sheets_request) : bool :=
  match r with addFilterView _ _ _ => true | _ => false end.


End Repository.

(* ================================================================= *)
(** ** Properties of all the paths of a program

    Each predicate speaks of every path through a program tree, whatever
    the operator types and the service answers. *)

Module Paths.
Import PyStr Api Run.

(** The answer [confirm not in ['yes', 'y']] sends back. *)
Definition declined (answer : string) : bool :=
  negb (mem (lower (strip answer)) ["yes"; "y"]).

(** The line every [except HttpError] clause prints first. *)
Definition error_line (text : string) : string :=
  newline ++ "Error: " ++ text.

(** The answers given to a prompt, in order. *)
Fixpoint answers (prompt : string) (t : list event) : list string :=
  match t with
  | [] => []
  | Asked pr (Some a) :: rest =>
      if pr =? prompt then a :: answers prompt rest else answers prompt rest
  | _ :: rest => answers prompt rest
  end.

Section OneType.
Context {A : Type}.

(** Every request the program sends satisfies [P]. *)
Inductive all_calls (P : request -> Prop) : prog A -> Prop :=
| all_ret a : all_calls P (Ret a)
| all_raise e : all_calls P (Raise e)
| all_exit c : all_calls P (Exit c)
| all_print l k : all_calls P k -> all_calls P (Print l k)
| all_input pr k : (forall o, all_calls P (k o)) -> all_calls P (Input pr k)
| all_auth sc k : (forall r, all_calls P (k r)) -> all_calls P (Authenticate sc k)
| all_call r k : P r -> (forall x, all_calls P (k x)) -> all_calls P (Call r k).

(** The program prints and returns: no input, no call, no exception. *)
Inductive returns : prog A -> Prop :=
| returns_ret a : returns (Ret a)
| returns_print l k : returns k -> returns (Print l k).

(** The program prints [line], possibly among other lines, and returns. *)
Inductive reports (line : string) : prog A -> Prop :=
| reports_here k : returns k -> reports line (Print line k)
| reports_later l k : reports line k -> reports line (Print l k).

(** After a call that raises [HttpError] the program prints the error
    line and returns. *)
Inductive careful : prog A -> Prop :=
| careful_ret a : careful (Ret a)
| careful_raise e : careful (Raise e)
| careful_exit c : careful (Exit c)
| careful_print l k : careful k -> careful (Print l k)
| careful_input pr k : (forall o, careful (k o)) -> careful (Input pr k)
| careful_auth sc k : (forall r, careful (k r)) -> careful (Authenticate sc k)
| careful_call r k :
    (forall body, careful (k (Returned body))) ->
    (forall t, reports (error_line t) (k (HttpError t))) ->
    (forall t, careful (k (Failed t))) ->
    careful (Call r k).

(** The body of a [try]: a call that fails raises at once. *)
Inductive guarded : prog A -> Prop :=
| guarded_ret a : guarded (Ret a)
| guarded_raise e : guarded (Raise e)
| guarded_exit c : guarded (Exit c)
| guarded_print l k : guarded k -> guarded (Print l k)
| guarded_input pr k : (forall o, guarded (k o)) -> guarded (Input pr k)
| guarded_auth sc k : (forall r, guarded (k r)) -> guarded (Authenticate sc k)
| guarded_call r k :
    (forall body, guarded (k (Returned body))) ->
    (forall t, k (HttpError t) = Raise (HttpErr t)) ->
    (forall t, guarded (k (Failed t))) ->
    guarded (Call r k).

(** The next effect other than printing is a call. *)
Inductive calls_first : prog A -> Prop :=
| first_call r k : calls_first (Call r k)
| first_print l k : calls_first k -> calls_first (Print l k).

(** Once credentials are granted, a call follows. *)
Inductive eager : prog A -> Prop :=
| eager_ret a : eager (Ret a)
| eager_raise e : eager (Raise e)
| eager_exit c : eager (Exit c)
| eager_print l k : eager k -> eager (Print l k)
| eager_input pr k : (forall o, eager (k o)) -> eager (Input pr k)
| eager_auth sc k : calls_first (k Granted) -> eager (Authenticate sc k)
| eager_call r k : eager (Call r k).


End OneType.

(** A program that sends nothing. *)
Abbreviation quiet := (all_calls (fun _ => False)).

End Paths.

(* ================================================================= *)
(** ** What the specification says the cells hold

    These definitions follow the words of the specification; the
    properties below compare them with the formulas and the code. *)

Module Described.
Import PyStr Sheet.

(** The Item ID the glossary describes. *)
Definition joined (category brand size color : string) (row : nat) : string :=
  (category ++ "-" ++ brand ++ "-" ++ size ++ "-" ++ color ++ "-" ++
   of_N (N.of_nat row))%string.

Definition column (g : grid) (c : nat) : list string :=
  map (fun row => cell row (c - 1)) g.


(** The Inventory cell the dashboard shows for a sale: column [c] of the
    first Inventory row whose Item ID is [key], empty when there is none. *)
Definition looked_up (inventory : grid) (key : string) (c : nat) : string :=
  match find (fun row => cell row 0 =? key) inventory with
  | Some row => cell row (c - 1)
  | None => ""
  end.

(** The dashboard row of a sale. *)
Definition dashboard_row (inventory : grid) (sale : list string) : list string :=
  let id := cell sale 0 in
  [id;
   looked_up inventory id 3; looked_up inventory id 4;
   looked_up inventory id 5; looked_up inventory id 6;
   cell sale 4; cell sale 5; cell sale 1; cell sale 6; cell sale 7].

Definition has_item_id (sale : list string) : bool := negb (cell sale 0 =? "").

(** The 0-based position of a header. *)
Fixpoint index_of (x : string) (l : list string) : option nat :=
  match l with
  | [] => None
  | y :: rest => if y =? x then Some 0 else option_map S (index_of x rest)
  end.


End Described.

(* ================================================================= *)
(** ** Sample data *)

Module Samples.
Import Api Run Sheet.

(** A workbook with three Inventory rows, the second without a colour,
    and two Sales rows, the second without an Item ID. *)
Definition resale : workbook :=
  {| Inventory :=
       [ CreateResaleSheet.inventory_headers;
         ["Tee-Nike-M-Red-2"; "012345678905"; "Tee"; "Nike"; "M"; "Red";
          "12.00"; "2024-01-05"; "Sold"; "Zach's garage"; ""];
         [""; ""; "Hoodie"; "Essentials"; "XL"; ""; "65.00"];
         ["Jacket-Levis-L-Blue-4"; ""; "Jacket"; "Levis"; "L"; "Blue"] ];
     Sales :=
       [ CreateResaleSheet.sales_headers;
         ["Tee-Nike-M-Red-2"; "30.00"; "2024-02-01"; "Zach"; "Bo"; "eBay";
          "shipped"; "1Z999"; ""];
         [""; "15.00"; "2024-02-03"; "Adi"; "Cy"; "local";
          "local pickup (no shipping)"] ];
     ShippingDashboard := [CreateResaleSheet.dashboard_headers] |}.

(** A response body with every field the scripts read. *)
Definition body : response :=
  {| r_spreadsheetId := Some "abc";
     r_properties_title := Some "Clothing Resale Business";
     r_sheets := Some
       [ {| sheet_title := "Inventory"; sheet_id := 0; filterViews := [] |};
         {| sheet_title := "Sales"; sheet_id := 1; filterViews := [] |};
         {| sheet_title := "Shipping Dashboard"; sheet_id := 2; filterViews := [] |} ];
     r_values := Some [];
     r_formId := Some "form1" |}.

(** The same for a spreadsheet that still has its Purchases tab, with
    two rows in it. *)
Definition legacy_body : response :=
  {| r_spreadsheetId := Some "abc";
     r_properties_title := Some "Clothing Resale Business";
     r_sheets := Some
       [ {| sheet_title := "Purchases"; sheet_id := 3; filterViews := [] |};
         {| sheet_title := "Inventory"; sheet_id := 0; filterViews := [] |};
         {| sheet_title := "Sales"; sheet_id := 1; filterViews := [] |};
         {| sheet_title := "Shipping Dashboard"; sheet_id := 2; filterViews := [] |} ];
     r_values := Some
       [ ["P-1"; "012345678905"; "Tee"; "Nike"; "M"; "Red"; "12.00";
          "2024-01-05"; "New"; "first buy"];
         ["P-2"; ""; "Hoodie"] ];
     r_formId := None |}.

Definition legacy (lines : list string) : world :=
  {| stdin := lines; auth := Granted; replies := fun _ _ => Returned legacy_body |}.

(** The service answers every call; the operator types [lines]. *)
Definition cooperative (lines : list string) : world :=
  {| stdin := lines; auth := Granted; replies := fun _ _ => Returned body |}.

(** The service answers the call number [k] (from 0) with an error. *)
Definition failing_at (k : nat) (lines : list string) : world :=
  {| stdin := lines; auth := Granted;
     replies := fun n _ =>
       if Nat.eqb n k then HttpError "<HttpError 404 Not Found>"
       else Returned body |}.

End Samples.


(* ================================================================= *)
(** ** More of the scripts' code, named for the properties below *)

Module Parts.
Import PyStr Api Run Common.

(** The loop of [get_sheet_ids] over the sheets of the metadata. *)
Definition sheet_ids_of (sheets : list sheet) : dict :=
  fold_left (fun d s => dict_set d (sheet_title s) (sheet_id s)) sheets [].

(** [sheet_metadata.get('sheets', [])] *)
Definition sheets_in (body : response) : list sheet :=
  match r_sheets body with Some l => l | None => [] end.

(** The last sheet of the metadata with a given title. *)
Definition last_titled (title : string) (sheets : list sheet) : option sheet :=
  find (fun s => sheet_title s =? title) (rev sheets).

(** The text is made of whitespace only. *)
Fixpoint blank (s : string) : bool :=
  match s with
  | EmptyString => true
  | String c t => is_space c && blank t
  end.

End Parts.

(* ================================================================= *)
(** ** All the runs of a program at once

    [every_run p Q] follows the program down every branch the outside
    can take it (each line or end of input at a prompt, each outcome of
    authentication, each reply to a call) and asks [Q] of the events of
    the branch and of the way it stops. *)

Module Hoare.
Import Api Run.

Inductive outcome (A : Type) :=
| Done (a : A)
| Thrown (e : exn)
| Quit (code : nat).

Arguments Done {A} a.
Arguments Thrown {A} e.
Arguments Quit {A} code.

Definition stops {A : Type} (o : outcome A) : ending :=
  match o with
  | Done _ => Finished
  | Thrown e => Uncaught e
  | Quit c => Exited c
  end.

Fixpoint every_run {A : Type} (p : prog A)
         (Q : list event -> outcome A -> Prop) : Prop :=
  match p with
  | Ret a => Q [] (Done a)
  | Raise e => Q [] (Thrown e)
  | Exit c => Q [] (Quit c)
  | Print l k => every_run k (fun t o => Q (Printed l :: t) o)
  | Input pr k => forall a, every_run (k a) (fun t o => Q (Asked pr a :: t) o)
  | Authenticate sc k =>
      forall r, every_run (k r) (fun t o => Q (Authenticated sc r :: t) o)
  | Call r k => forall x, every_run (k x) (fun t o => Q (Called r x :: t) o)
  end.

End Hoare.

(* ================================================================= *)
(** ** Names for what the runs of the scripts are asked *)

Module Asked.
Import PyStr SpreadsheetId Api Run Common Repository Paths Parts Hoare.

(** The line the last [except] clause of a [main] prints first. *)
Definition unexpected_line (text : string) : string :=
  newline ++ "Unexpected error: " ++ text.

(** The scripts whose last [except] clause ends with [raise]. *)
Definition raises_again (s : script) : bool :=
  match s with
  | create_resale_sheet | create_inventory_form
  | migrate_to_consolidated | remove_condition_column => true
  | _ => false
  end.

(** The line [get_credentials] prints before [exit(1)]. *)
Definition credentials_line : string :=
  newline ++ "Error: credentials.json not found!".

(** [get_credentials] was called. *)
Definition attempted (t : list event) : bool :=
  existsb (fun e => match e with Authenticated _ _ => true | _ => false end) t.

(** [get_credentials] found no credentials.json. *)
Definition denied (t : list event) : bool :=
  existsb (fun e =>
    match e with Authenticated _ NoCredentialsFile => true | _ => false end) t.

(** [get_credentials] raised the exception with this text. *)
Definition refused (text : string) (t : list event) : bool :=
  existsb (fun e =>
    match e with
    | Authenticated _ (AuthFailed x) => x =? text
    | _ => false
    end) t.

(** A prompt met the end of the input. *)
Definition starved (t : list event) : bool :=
  existsb (fun e => match e with Asked _ None => true | _ => false end) t.

Definition returned (x : reply) : bool :=
  match x with Returned _ => true | _ => false end.

(** The line with the URL of the spreadsheet, which a script prints
    after its work is done. *)
Definition url_line (s : script) (id : string) : option string :=
  match s with
  | create_resale_sheet =>
      Some (newline ++ "Spreadsheet URL:" ++ newline ++ spreadsheet_url id)%string
  | create_inventory_form =>
      Some (newline ++ "1. Open your spreadsheet: " ++ spreadsheet_url id)%string
  | migrate_to_consolidated | remove_condition_column =>
      Some (newline ++ "View your updated sheet: " ++ spreadsheet_url id)%string
  | add_inventory_filters | add_item_id_dropdown =>
      Some (newline ++ "View your sheet: " ++ spreadsheet_url id)%string
  | add_essentials_hoodie => None
  end.

(** The scripts that work on a spreadsheet the operator names, and the
    tabs each of them looks for before it changes anything. *)
Definition required_tabs (s : script) : list string :=
  match s with
  | migrate_to_consolidated => ["Purchases"; "Inventory"]
  | remove_condition_column => ["Inventory"]
  | add_inventory_filters => ["Inventory"]
  | add_item_id_dropdown => ["Sales"; "Inventory"]
  | _ => []
  end.

Definition edits_existing (s : script) : bool :=
  match required_tabs s with [] => false | _ => true end.

Definition has_tab (body : response) (title : string) : bool :=
  existsb (fun sh => sheet_title sh =? title) (sheets_in body).

Definition lacks_a_tab (s : script) (body : response) : bool :=
  existsb (fun title => negb (has_tab body title)) (required_tabs s).

(** The request changes something. *)
Definition writes (r : request) : bool :=
  match r with
  | spreadsheets_get _ _ | values_get _ _ => false
  | _ => true
  end.

(** The spreadsheet or form a request addresses. *)
Definition target (r : request) : option string :=
  match r with
  | spreadsheets_create _ _ | forms_create _ _ => None
  | spreadsheets_get id _ | values_get id _
  | values_update id _ _ _ | spreadsheets_batchUpdate id _
  | forms_batchUpdate id _ => Some id
  end.

(** The ID a create request hands back: [spreadsheet['spreadsheetId']],
    [result['formId']]. *)
Definition created (r : request) (body : response) : option string :=
  match r with
  | spreadsheets_create _ _ => r_spreadsheetId body
  | forms_create _ _ => r_formId body
  | _ => None
  end.

Definition creates (r : request) : bool :=
  match r with
  | spreadsheets_create _ _ | forms_create _ _ => true
  | _ => false
  end.

(** The spreadsheet ID a run is given: [sys.argv[1]] as it stands, or
    else what the first line typed parses to. *)
Definition given (sys_argv : list string) (t : list event) : option string :=
  match sys_argv with
  | _ :: arg :: _ => Some arg
  | _ =>
      match t with
      | Asked _ (Some line) :: _ => parse_input line
      | _ => None
      end
  end.

Definition deletes_sheet (r : request) : bool :=
  match r with
  | spreadsheets_batchUpdate _ requests =>
      existsb (fun q => match q with deleteSheet _ => true | _ => false end) requests
  | _ => false
  end.

(** The request carries something to write: no [batchUpdate] without
    entries, no [values.update] without rows. *)
Definition carries_something (r : request) : bool :=
  match r with
  | values_update _ _ _ values => match values with [] => false | _ => true end
  | spreadsheets_batchUpdate _ requests =>
      match requests with [] => false | _ => true end
  | forms_batchUpdate _ requests =>
      match requests with [] => false | _ => true end
  | _ => true
  end.

(** What every branch of every [main] is shown to satisfy, by one walk
    down the scripts. *)
Definition orderly (s : script) (sys_argv : list string)
           (t : list event) (o : outcome unit) : Prop :=
  (forall i r text,
     nth_error (calls t) i = Some (r, Failed text) ->
     List.length (calls t) = S i /\
     In (unexpected_line text) (printed t) /\
     stops o = if raises_again s then Uncaught (OtherExn text) else Finished) /\
  (calls t <> [] -> authenticated t = true) /\
  (denied t = true ->
     calls t = [] /\ stops o = Exited 1 /\ In credentials_line (printed t)) /\
  (forall text, refused text t = true ->
     calls t = [] /\ In (unexpected_line text) (printed t) /\
     stops o = if raises_again s then Uncaught (OtherExn text) else Finished) /\
  (starved t = true ->
     calls t = [] /\ authenticated t = false /\ stops o = Uncaught EOFError) /\
  (forall id l, url_line s id = Some l -> In l (printed t) ->
     stops o = Finished /\ forallb (fun c => returned (snd c)) (calls t) = true) /\
  (forall e, stops o = Uncaught e ->
     e = EOFError /\ starved t = true \/
     raises_again s = true /\ (forall text, e <> HttpErr text) /\
     In (unexpected_line (exn_text e)) (printed t)) /\
  (forall r body rest,
     calls t = (r, Returned body) :: rest -> lacks_a_tab s body = true ->
     rest = [] /\ writes r = false) /\
  (forall r body rest,
     calls t = (r, Returned body) :: rest -> creates r = true ->
     Forall (fun c => target (fst c) = created r body /\
                      created r body <> None) rest) /\
  (forall id, edits_existing s = true -> given sys_argv t = Some id ->
     Forall (fun c => target (fst c) = Some id) (calls t)) /\
  (forall i r x,
     s = migrate_to_consolidated ->
     nth_error (calls t) i = Some (r, x) -> deletes_sheet r = true ->
     List.length (calls t) = S i /\ 7 <= i /\
     forallb (fun c => returned (snd c)) (firstn i (calls t)) = true) /\
  (forall prompt a,
     confirm_prompt s = Some prompt ->
     hd_error (answers prompt t) = Some a -> declined a = false ->
     attempted t = true).

End Asked.

(* ================================================================= *)
(** ** More sample worlds *)

Module Worlds.
Import Api Run.

(** The call number [k] (from 0) fails without an HTTP status. *)
Definition broken_at (k : nat) (lines : list string) : world :=
  {| stdin := lines; auth := Granted;
     replies := fun n _ =>
       if Nat.eqb n k then Failed "timed out" else Returned Samples.body |}.

(** There is no credentials.json. *)
Definition without_credentials (lines : list string) : world :=
  {| stdin := lines; auth := NoCredentialsFile;
     replies := fun _ _ => Returned Samples.body |}.

(** The consent flow raises. *)
Definition refusing (lines : list string) : world :=
  {| stdin := lines; auth := AuthFailed "access_denied";
     replies := fun _ _ => Returned Samples.body |}.

(** The service answers with bodies that hold no key at all. *)
Definition empty_body : response :=
  {| r_spreadsheetId := None; r_properties_title := None;
     r_sheets := None; r_values := None; r_formId := None |}.

Definition terse (lines : list string) : world :=
  {| stdin := lines; auth := Granted; replies := fun _ _ => Returned empty_body |}.

End Worlds.

(* ################################################################# *)
(** * Properties *)

(* ================================================================= *)
(** ** Strings *)

Module PyStrFacts.
Import PyStr.

Lemma contains_cons (n : string) (c : ascii) (t : string) :
  contains n (String c t) = false -> contains n t = false.
Proof.
  cbn [contains]. intros H. apply orb_false_iff in H. apply H.
Qed.

Lemma contains_head (a c : ascii) (t : string) :
  contains (String a "") (String c t) = false -> a <> c.
Proof.
  cbn [contains prefix]. destruct (ascii_dec a c) as [->|Hne]; [|easy].
  destruct t; discriminate.
Qed.

(** Without a slash there is no occurrence of a separator that starts
    with one, so [split] returns the string whole. *)
Lemma split_no_slash (rest s : string) :
  contains "/" s = false -> split (String "/" rest) s = [s].
Proof.
  unfold split. induction s as [|c t IH]; intros H; [reflexivity|].
  pose proof (contains_head _ _ _ H) as Hne.
  cbn [split_go prefix]. destruct (ascii_dec "/" c) as [E|_]; [contradiction|].
  rewrite IH by (eapply contains_cons; eassumption). reflexivity.
Qed.

Lemma split_go_miss (sep : string) (c : ascii) (t h : string) (r : list string) :
  prefix sep (String c t) = false ->
  split_go sep t 0 = h :: r ->
  split_go sep (String c t) 0 = String c h :: r.
Proof.
  intros Hp Ht. cbn [split_go]. now rewrite Hp, Ht.
Qed.




Lemma rstrip_cons (c : ascii) (t : string) :
  is_space c = false -> rstrip (String c t) = String c (rstrip t).
Proof.
  intros H. cbn [rstrip]. rewrite H. now destruct (rstrip t).
Qed.

End PyStrFacts.

(* ================================================================= *)
(** ** The spreadsheet ID read back from the printed URL *)

Module SpreadsheetIdFacts.
Import PyStr PyStrFacts SpreadsheetId.

Lemma url_contains_marker (id : string) :
  contains "docs.google.com/spreadsheets" (spreadsheet_url id) = true.
Proof. reflexivity. Qed.







End SpreadsheetIdFacts.

(* ================================================================= *)
(** ** The migrated rows *)

Module MigrateFacts.
Import Migrate Sheet Described.


End MigrateFacts.

(* ================================================================= *)
(** ** The formulas *)

Module FormulaFacts.
Import PyStr Formula Sheet Texts Installed Described.

Lemma parse_formula_a2 : parse formula_a2 = Some item_id_expr.
Proof. vm_compute. reflexivity. Qed.


Lemma text_of_cell (s : string) : text_of (of_cell s) = s.
Proof.
  unfold of_cell. destruct (String.eqb_spec s ""); now subst.
Qed.

Lemma of_cell_empty (s : string) : s = "" -> of_cell s = SBlank.
Proof. now intros ->. Qed.

Lemma of_cell_full (s : string) : s <> "" -> of_cell s = SStr s.
Proof.
  intros H. unfold of_cell. now destruct (String.eqb_spec s "").
Qed.

Ltac eval_formula :=
  cbn [eval map apply lift shape item eval_ref tab env_wb env_tab env_row
       env_fill ep_row ep_col ep_row_abs resolve_row String.eqb Ascii.eqb
       Bool.eqb scalars rows_of concat app].

Lemma is_err_cell (s : string) : is_err (of_cell s) = false.
Proof. unfold of_cell. now destruct (s =? ""). Qed.

Lemma cell_ne_empty (s : string) :
  fn_cmp OpNe [of_cell s; SStr ""] = SBool (negb (s =? "")).
Proof.
  unfold of_cell. destruct (String.eqb_spec s "") as [->|E]; [reflexivity|].
  cbn. now destruct (String.eqb_spec s "").
Qed.


Lemma item_id_value (wb : workbook) (fill : nat) :
  let at_column := cell_at (Inventory wb) (2 + fill) in
  item_id wb fill =
    if (at_column 3 =? "") || (at_column 4 =? "") ||
       (at_column 5 =? "") || (at_column 6 =? "")
    then ""
    else joined (at_column 3) (at_column 4) (at_column 5) (at_column 6) (2 + fill).
Proof.
  intros at_column. unfold item_id, shown_cell, shown.
  rewrite parse_formula_a2. unfold item_id_expr, inventory_row2. eval_formula.
  fold (at_column 3) (at_column 4) (at_column 5) (at_column 6).
  generalize (at_column 3) (at_column 4) (at_column 5) (at_column 6).
  intros c b s k. unfold joined. rewrite !cell_ne_empty.
  cbn [fn_and as_bool fn_if].
  destruct (c =? ""), (b =? ""), (s =? ""), (k =? ""); try reflexivity.
  unfold fn_concatenate. cbn [existsb map is_err orb].
  rewrite !is_err_cell, !text_of_cell. reflexivity.
Qed.



Lemma matches_cells (x s : string) :
  x <> "" -> matches (of_cell x) (of_cell s) = (x =? s).
Proof.
  intros Hx. rewrite (of_cell_full x Hx). unfold of_cell, matches.
  destruct (String.eqb_spec s "") as [->|E]; cbn [same text_of].
  - now destruct x.
  - apply String.eqb_sym.
Qed.




Lemma parse_query_formula : parse query_formula = Some (query_expr 11).
Proof. vm_compute. reflexivity. Qed.

Lemma parse_query_formula_migrate :
  parse query_formula_migrate = Some (query_expr 12).
Proof. vm_compute. reflexivity. Qed.

(** *** Tables built row by row *)

Lemma map_seq_rows {A B : Type} (l : list A) (f : nat -> B) (g : A -> B) :
  (forall i x, nth_error l i = Some x -> f i = g x) ->
  map f (seq 0 (List.length l)) = map g l.
Proof.
  revert f. induction l as [|x l IH]; intros f H; [reflexivity|].
  cbn [List.length seq map]. rewrite (H 0 x eq_refl). f_equal.
  rewrite <- seq_shift, map_map. apply IH.
  intros i y Hy. now apply (H (S i)).
Qed.

Lemma map_seq_nth {B : Type} (r : list scalar) (g : scalar -> B) :
  map (fun j => g (nth j r SErr)) (seq 0 (List.length r)) = map g r.
Proof.
  apply map_seq_rows. intros i x Hx. f_equal. now apply nth_error_nth.
Qed.

Lemma nth_rows {A B : Type} (h : A -> B) (l : list A) (i : nat) (x : A) (d : B) :
  nth_error l i = Some x -> nth i (map h l) d = h x.
Proof.
  intros H. apply nth_error_nth. now apply map_nth_error.
Qed.

Lemma nth_error_single {A : Type} (y x : A) (i : nat) :
  nth_error [y] i = Some x -> i = 0.
Proof.
  destruct i as [|i]; [reflexivity|]. now destruct i.
Qed.

Lemma item_rows {A : Type} (h : A -> list scalar) (l : list A) (i j : nat) (x : A) :
  nth_error l i = Some x -> item (VArray (map h l)) i j = pick (h x) j.
Proof.
  intros H. unfold item, pick. rewrite length_map.
  destruct (Nat.eqb_spec (List.length l) 1) as [E|E].
  - destruct l as [|y [|z l]]; try discriminate E.
    pose proof (nth_error_single _ _ _ H) as ->.
    cbn in H. injection H as ->. reflexivity.
  - now rewrite (map_nth_error h i l H).
Qed.

Lemma lift_rows {A : Type} (f : list scalar -> scalar) (vs : list value)
      (l : list A) (m : nat) (r : A -> list scalar) :
  shape vs = Some (List.length l, m) ->
  (forall i x, nth_error l i = Some x ->
     map (fun j => f (map (fun v => item v i j) vs)) (seq 0 m) = r x) ->
  lift f vs = VArray (map r l).
Proof.
  intros Hs H. unfold lift, table. rewrite Hs. f_equal.
  now apply map_seq_rows.
Qed.

Lemma lift_column {A : Type} (f : list scalar -> scalar) (g : A -> scalar) (l : list A) :
  lift f [VArray (map (fun x => [g x]) l)] = VArray (map (fun x => [f [g x]]) l).
Proof.
  destruct l as [|y l]; [reflexivity|].
  apply (lift_rows f _ (y :: l) 1).
  - cbn [shape hd map List.length]. now rewrite length_map.
  - generalize (y :: l). clear y l. intros l i x Hx. cbn [seq map].
    now rewrite (item_rows (fun x => [g x]) _ _ _ _ Hx).
Qed.

Lemma lift_column_scalar {A : Type} (f : list scalar -> scalar) (g : A -> scalar)
      (s : scalar) (l : list A) :
  lift f [VArray (map (fun x => [g x]) l); VScalar s] =
  VArray (map (fun x => [f [g x; s]]) l).
Proof.
  destruct l as [|y l]; [reflexivity|].
  apply (lift_rows f _ (y :: l) 1).
  - cbn [shape hd map List.length]. now rewrite length_map.
  - generalize (y :: l). clear y l. intros l i x Hx. cbn [seq map].
    now rewrite (item_rows (fun x => [g x]) _ _ _ _ Hx).
Qed.

Lemma pick_wide (row : list scalar) (j k : nat) :
  List.length row = S (S k) -> pick row j = nth j row SErr.
Proof.
  intros H. unfold pick. rewrite H. cbn [Nat.eqb].
  destruct (nth_error row j) eqn:E.
  - symmetry. now apply nth_error_nth.
  - symmetry. apply nth_overflow. now apply nth_error_None.
Qed.

Lemma lift_column_rows_scalar {A : Type} (f : list scalar -> scalar)
      (c : A -> scalar) (h : A -> list scalar) (s : scalar) (k : nat) (l : list A) :
  (forall x, List.length (h x) = S (S k)) ->
  lift f [VArray (map (fun x => [c x]) l); VArray (map h l); VScalar s] =
  VArray (map (fun x => map (fun t => f [c x; t; s]) (h x)) l).
Proof.
  intros Hw. destruct l as [|y l]; [reflexivity|].
  apply (lift_rows f _ (y :: l) (S (S k))).
  - cbn [shape hd map List.length]. rewrite !length_map, Hw, Nat.max_id.
    reflexivity.
  - generalize (y :: l). clear y l. intros l i x Hx. cbn [map].
    rewrite <- (Hw x), <- map_seq_nth. apply map_ext_in. intros j _.
    rewrite (item_rows (fun x => [c x]) _ _ _ _ Hx), (item_rows h _ _ _ _ Hx).
    now rewrite (pick_wide (h x) j k (Hw x)).
Qed.

Lemma hconcat_rows {A : Type} (h0 : A -> list scalar) (hs : list (A -> list scalar))
      (l : list A) :
  hconcat (map (fun h => VArray (map h l)) (h0 :: hs)) =
  VArray (map (fun x => concat (map (fun h => h x) (h0 :: hs))) l).
Proof.
  unfold hconcat. rewrite map_map. cbn [rows_of].
  cbn [map]. rewrite length_map.
  replace (forallb _ _) with true.
  - f_equal. apply map_seq_rows. intros i x Hx. f_equal.
    cbn [map]. rewrite ?map_map. f_equal; [now apply nth_rows|].
    apply map_ext. intros h. now apply nth_rows.
  - symmetry. apply forallb_forall. intros r Hr.
    change (map h0 l :: map (fun h => map h l) hs)
      with (map (fun h : A -> list scalar => map h l) (h0 :: hs)) in Hr.
    apply in_map_iff in Hr. destruct Hr as [h [<- _]].
    rewrite length_map. apply Nat.eqb_refl.
Qed.

Lemma find_through_map {A B : Type} (p : B -> bool) (q : A -> bool)
      (f : A -> B) (l : list A) :
  (forall x, p (f x) = q x) ->
  find p (map f l) = option_map f (find q l).
Proof.
  intros H. induction l as [|x l IH]; [reflexivity|].
  cbn [map find]. rewrite H. now destruct (q x).
Qed.

Lemma map_filter_rows {A B C : Type} (r : A -> B) (p : B -> bool) (q : A -> bool)
      (F : B -> C) (G : A -> C) (l : list A) :
  (forall x, p (r x) = q x) ->
  (forall x, q x = true -> F (r x) = G x) ->
  map F (filter p (map r l)) = map G (filter q l).
Proof.
  intros Hp HF. induction l as [|x l IH]; [reflexivity|].
  cbn [map filter]. rewrite Hp. destruct (q x) eqn:E; [|exact IH].
  cbn [map]. now rewrite IH, (HF x E).
Qed.

Lemma row_cells_from_1 (w : nat) (row : list string) :
  row_cells 1 w row = map (fun j => of_cell (cell row j)) (seq 0 w).
Proof. unfold row_cells. now rewrite Nat.add_sub. Qed.

Lemma nth_row_cells (w j : nat) (row : list string) :
  j < w -> nth j (row_cells 1 w row) SErr = of_cell (cell row j).
Proof.
  intros H. rewrite row_cells_from_1.
  rewrite (nth_indep _ SErr (of_cell (cell row 0)))
    by now rewrite length_map, length_seq.
  rewrite (map_nth (fun j => of_cell (cell row j))). now rewrite seq_nth.
Qed.

(** IFERROR(VLOOKUP(key, Inventory!A:<w>, k, FALSE), "") shows the
    looked-up Inventory cell. *)
Lemma lookup_shown (inventory : grid) (w : nat) (k : N) (key : string) :
  key <> "" -> 1 <= N.to_nat k <= w ->
  text_of (fn_iferror
             [fn_vlookup (map (row_cells 1 w) inventory) (SNum k) (SBool false)
                         [of_cell key];
              SStr ""]) =
  looked_up inventory key (N.to_nat k).
Proof.
  intros Hkey Hk. unfold fn_vlookup, looked_up.
  rewrite (find_through_map _ (fun row => cell row 0 =? key) (row_cells 1 w)).
  - destruct (find _ inventory) as [row|]; [|reflexivity].
    cbn [option_map]. rewrite nth_row_cells by lia.
    cbn [fn_iferror]. now rewrite is_err_cell, text_of_cell.
  - intros row.
    replace (hd SErr (row_cells 1 w row)) with (of_cell (cell row 0)).
    + rewrite matches_cells by assumption. apply String.eqb_sym.
    + rewrite row_cells_from_1. destruct w as [|w]; [lia|reflexivity].
Qed.

Ltac columns_of_sales :=
  change (2 + 0 - 1) with 1;
  change (row_cells 1 1) with (fun row : list string => [of_cell (cell row 0)]);
  change (row_cells 2 2) with (fun row : list string => [of_cell (cell row 1)]);
  change (row_cells 5 5) with (fun row : list string => [of_cell (cell row 4)]);
  change (row_cells 6 6) with (fun row : list string => [of_cell (cell row 5)]);
  change (row_cells 7 7) with (fun row : list string => [of_cell (cell row 6)]);
  change (row_cells 8 8) with (fun row : list string => [of_cell (cell row 7)]).

Ltac side_by_side :=
  match goal with
  | |- context [hconcat [VArray (map ?h0 ?l); VArray (map ?h1 _);
                         VArray (map ?h2 _); VArray (map ?h3 _);
                         VArray (map ?h4 _); VArray (map ?h5 _);
                         VArray (map ?h6 _); VArray (map ?h7 _);
                         VArray (map ?h8 _); VArray (map ?h9 _)]] =>
      rewrite (hconcat_rows h0 [h1; h2; h3; h4; h5; h6; h7; h8; h9] l
               : hconcat [VArray (map h0 l); VArray (map h1 l);
                          VArray (map h2 l); VArray (map h3 l);
                          VArray (map h4 l); VArray (map h5 l);
                          VArray (map h6 l); VArray (map h7 l);
                          VArray (map h8 l); VArray (map h9 l)] = _)
  end.

(** The rows the query formula shows, for an Inventory range of [w]
    columns that covers the looked-up columns 3 to 6. *)
Lemma query_shown (wb : workbook) (w : nat) :
  6 <= w ->
  map (map text_of) (rows_of (eval (dashboard_a2 wb) (query_expr w))) =
  map (dashboard_row (Inventory wb)) (filter has_item_id (skipn 1 (Sales wb))).
Proof.
  intros Hw.
  unfold query_expr, lookup_expr, sales_column, inventory_columns, dashboard_a2.
  cbn [eval map apply eval_ref tab env_wb env_tab env_row
       env_fill ep_row ep_col ep_row_abs resolve_row String.eqb Ascii.eqb
       Bool.eqb item Nat.sub skipn rows_of].
  columns_of_sales.
  rewrite !lift_column, !lift_column_scalar. side_by_side.
  cbn [map concat app].
  erewrite (lift_column_rows_scalar _ _ _ _ 8) by reflexivity.
  cbn [map]. unfold fn_query. cbn [String.eqb Ascii.eqb Bool.eqb rows_of].
  apply map_filter_rows; intros sale; unfold has_item_id;
    rewrite !cell_ne_empty;
    destruct (String.eqb_spec (cell sale 0) "") as [E|E]; try reflexivity.
  - cbn [negb fn_if as_bool]. now rewrite (of_cell_full _ E).
  - discriminate.
  - intros _. cbn [negb fn_if as_bool map]. unfold dashboard_row.
    rewrite !text_of_cell.
    rewrite !lookup_shown by (try assumption; cbn; lia).
    reflexivity.
Qed.

End FormulaFacts.

(* ================================================================= *)
(** ** Runs of programs *)

Module PathFacts.
Import PyStr Api Run Paths.

Section Soundness.
Context {A : Type}.

Lemma run_from_print (l : string) (k : prog A) (w : world) (lines : list string) (n : nat) :
  run_from (Print l k) w lines n =
  (Printed l :: fst (run_from k w lines n), snd (run_from k w lines n)).
Proof. cbn. now destruct (run_from k w lines n). Qed.

Lemma run_from_call (r : request) (k : reply -> prog A) (w : world)
      (lines : list string) (n : nat) :
  run_from (Call r k) w lines n =
  (Called r (replies w n r) :: fst (run_from (k (replies w n r)) w lines (S n)),
   snd (run_from (k (replies w n r)) w lines (S n))).
Proof. cbn. now destruct (run_from _ w lines (S n)). Qed.

Lemma run_from_auth (sc : list string) (k : auth_reply -> prog A) (w : world)
      (lines : list string) (n : nat) :
  run_from (Authenticate sc k) w lines n =
  (Authenticated sc (auth w) :: fst (run_from (k (auth w)) w lines n),
   snd (run_from (k (auth w)) w lines n)).
Proof. cbn. now destruct (run_from _ w lines n). Qed.

Lemma run_from_input (pr : string) (k : option string -> prog A) (w : world)
      (lines : list string) (n : nat) :
  run_from (Input pr k) w lines n =
  (Asked pr (hd_error lines) :: fst (run_from (k (hd_error lines)) w (tl lines) n),
   snd (run_from (k (hd_error lines)) w (tl lines) n)).
Proof.
  destruct lines as [|l rest]; cbn [run_from hd_error tl].
  - now destruct (run_from (k None) w [] n).
  - now destruct (run_from (k (Some l)) w rest n).
Qed.

(** *** Requests *)

Lemma all_calls_run (P : request -> Prop) (p : prog A) :
  all_calls P p ->
  forall w lines n, Forall (fun c => P (fst c)) (calls (fst (run_from p w lines n))).
Proof.
  induction 1 as [a|e|c|l k _ IH|pr k _ IH|sc k _ IH|r k Hr _ IH]; intros w lines n.
  - constructor.
  - constructor.
  - constructor.
  - rewrite run_from_print. apply IH.
  - rewrite run_from_input. apply IH.
  - rewrite run_from_auth. apply IH.
  - rewrite run_from_call. cbn [fst calls]. constructor; [exact Hr | apply IH].
Qed.


Lemma returns_no_calls (p : prog A) : returns p -> all_calls (fun _ => False) p.
Proof. induction 1; now constructor. Qed.

Lemma returns_run (p : prog A) :
  returns p ->
  forall w lines n, snd (run_from p w lines n) = Finished /\
                    calls (fst (run_from p w lines n)) = [].
Proof.
  induction 1 as [a|l k _ IH]; intros w lines n.
  - now split.
  - rewrite run_from_print. apply IH.
Qed.


Lemma reports_run (line : string) (p : prog A) :
  reports line p ->
  forall w lines n,
    snd (run_from p w lines n) = Finished /\
    calls (fst (run_from p w lines n)) = [] /\
    In line (printed (fst (run_from p w lines n))).
Proof.
  induction 1 as [k Hk|l k _ IH]; intros w lines n; rewrite run_from_print.
  - destruct (returns_run k Hk w lines n) as [He Hc].
    cbn [fst snd calls printed]. repeat split; try assumption. now left.
  - destruct (IH w lines n) as (He & Hc & Hp).
    cbn [fst snd calls printed]. repeat split; try assumption. now right.
Qed.

(** *** Failure handling *)

(** A run of a careful program: a call answered by [HttpError] is the
    last call, the run ends by returning, and the error line has been
    printed. *)
Lemma careful_run (p : prog A) :
  careful p ->
  forall w lines n i r text,
    nth_error (calls (fst (run_from p w lines n))) i = Some (r, HttpError text) ->
    List.length (calls (fst (run_from p w lines n))) = S i /\
    snd (run_from p w lines n) = Finished /\
    In (error_line text) (printed (fst (run_from p w lines n))).
Proof.
  induction 1 as [a|e|c|l k _ IH|pr k _ IH|sc k _ IH|r k _ IHok Herr _ IHfail];
    intros w lines n i q text Hi.
  - now destruct i.
  - now destruct i.
  - now destruct i.
  - rewrite run_from_print in *. cbn [fst snd calls printed] in *.
    destruct (IH _ _ _ _ _ _ Hi) as (Hl & He & Hp). repeat split; auto.
    now right.
  - rewrite run_from_input in *. cbn [fst snd calls printed] in *. eauto.
  - rewrite run_from_auth in *. cbn [fst snd calls printed] in *. eauto.
  - rewrite run_from_call in *. cbn [fst snd calls printed] in *.
    destruct (replies w n r) as [body|t|t] eqn:E.
    + destruct i as [|i]; [discriminate Hi|]. cbn [nth_error] in Hi.
      destruct (IHok _ _ _ _ _ _ _ Hi) as (Hl & He & Hp).
      cbn [List.length]. now rewrite Hl.
    + destruct (reports_run _ _ (Herr t) w lines (S n)) as (He & Hc & Hp).
      rewrite Hc in *. destruct i as [|i]; [|now destruct i].
      cbn in Hi. injection Hi as _ <-. now repeat split.
    + destruct i as [|i]; [discriminate Hi|]. cbn [nth_error] in Hi.
      destruct (IHfail _ _ _ _ _ _ _ Hi) as (Hl & He & Hp).
      cbn [List.length]. now rewrite Hl.
Qed.

Lemma no_calls_careful (p : prog A) : all_calls (fun _ => False) p -> careful p.
Proof. induction 1; now constructor. Qed.

Lemma careful_try (body : prog A) (handler : exn -> prog A) :
  guarded body ->
  (forall t, reports (error_line t) (handler (HttpErr t))) ->
  (forall e, all_calls (fun _ => False) (handler e)) ->
  careful (try_except body handler).
Proof.
  intros Hb Hh Hn.
  induction Hb as [a|e|c|l k _ IH|pr k _ IH|sc k _ IH|r k _ IHok Herr _ IHfail];
    cbn [try_except]; try now constructor.
  - now apply no_calls_careful.
  - constructor; [exact IHok| |exact IHfail].
    intros t. rewrite Herr. cbn [try_except]. apply Hh.
Qed.

(** *** Credentials *)

Lemma authenticated_granted (p : prog A) (w : world) (lines : list string) (n : nat) :
  authenticated (fst (run_from p w lines n)) = true -> auth w = Granted.
Proof.
  revert lines n. induction p as [a|e|c|l k IH|pr k IH|sc k IH|r k IH];
    intros lines n; try discriminate.
  - rewrite run_from_print. apply IH.
  - rewrite run_from_input. apply IH.
  - rewrite run_from_auth. cbn [fst authenticated existsb].
    destruct (auth w); try reflexivity; apply IH.
  - rewrite run_from_call. apply IH.
Qed.



(** *** Confirmation *)

Lemma returns_answers (p : prog A) (prompt : string) :
  returns p -> forall w lines n, answers prompt (fst (run_from p w lines n)) = [].
Proof.
  induction 1 as [a|l k _ IH]; intros w lines n; [reflexivity|].
  rewrite run_from_print. apply IH.
Qed.


End Soundness.

(** *** Composition *)

Section Composition.
Context {A B : Type}.

Lemma all_calls_bind (P : request -> Prop) (p : prog A) (f : A -> prog B) :
  all_calls P p -> (forall a, all_calls P (f a)) -> all_calls P (bind p f).
Proof. induction 1; intros Hf; cbn [bind]; auto; constructor; auto. Qed.

Lemma guarded_bind (p : prog A) (f : A -> prog B) :
  guarded p -> (forall a, guarded (f a)) -> guarded (bind p f).
Proof.
  induction 1 as [a|e|c|l k _ IH|pr k _ IH|sc k _ IH|r k _ IHok Herr _ IHfail];
    intros Hf; cbn [bind]; auto; constructor; auto.
  intros t. now rewrite Herr.
Qed.

Lemma careful_bind (p : prog A) (f : A -> prog B) :
  all_calls (fun _ => False) p -> (forall a, careful (f a)) -> careful (bind p f).
Proof.
  induction 1; intros Hf; cbn [bind]; auto; constructor; auto; contradiction.
Qed.

End Composition.

End PathFacts.

(* ================================================================= *)
(** ** The scripts *)

Module ScriptFacts.
Import PyStr SpreadsheetId Api Run Common Paths PathFacts Repository.

Section Atoms.
Context {A : Type}.

Lemma all_calls_weaken (P Q : request -> Prop) (p : prog A) :
  (forall r, P r -> Q r) -> all_calls P p -> all_calls Q p.
Proof. intros H. induction 1; constructor; auto. Qed.

Lemma quiet_all (P : request -> Prop) (p : prog A) : quiet p -> all_calls P p.
Proof. apply all_calls_weaken. contradiction. Qed.

Lemma quiet_guarded (p : prog A) : quiet p -> guarded p.
Proof. induction 1; now constructor. Qed.

Lemma all_calls_try (P : request -> Prop) (body : prog A) (handler : exn -> prog A) :
  all_calls P body -> (forall e, all_calls P (handler e)) ->
  all_calls P (try_except body handler).
Proof. induction 1; intros Hh; cbn [try_except]; auto; constructor; auto. Qed.

Lemma quiet_field (key : string) (o : option A) : quiet (field key o).
Proof. destruct o; constructor. Qed.



Lemma returns_eager (p : prog A) : returns p -> eager p.
Proof. induction 1; now constructor. Qed.

End Atoms.

Section Binds.
Context {A B : Type}.



Lemma returns_bind (p : prog A) (f : A -> prog B) :
  returns p -> (forall a, returns (f a)) -> returns (bind p f).
Proof. induction 1; intros Hf; cbn [bind]; auto; constructor; auto. Qed.

End Binds.

Lemma quiet_print (l : string) : quiet (print l).
Proof. repeat constructor. Qed.

Lemma returns_print_line (l : string) : returns (print l).
Proof. repeat constructor. Qed.

Lemma quiet_input (pr : string) : quiet (input pr).
Proof. constructor. intros [l|]; constructor. Qed.

Lemma quiet_subscript (d : dict) (key : string) : quiet (subscript d key).
Proof. apply quiet_field. Qed.

Lemma quiet_get_credentials (scopes more : list string) :
  quiet (get_credentials scopes more).
Proof.
  constructor. intros [| |t]; cbn [bind print]; [constructor| |constructor].
  constructor.
  induction more as [|l more IH]; cbn [fold_right bind print]; now constructor.
Qed.

Lemma quiet_read_spreadsheet_id (sys_argv : list string) :
  quiet (read_spreadsheet_id sys_argv).
Proof.
  unfold read_spreadsheet_id.
  assert (H : quiet (line <- input "URL or ID: " ;;
                     match parse_input line with
                     | Some spreadsheet_id => Ret spreadsheet_id
                     | None => print "Error: Could not parse spreadsheet ID from URL" ;; Exit 1
                     end)).
  { apply all_calls_bind; [apply quiet_input|]. intros line.
    destruct (parse_input line); repeat constructor. }
  destruct sys_argv as [|a [|b l]]; try exact H. constructor.
Qed.

Lemma all_calls_execute (P : request -> Prop) (r : request) :
  P r -> all_calls P (execute r).
Proof. intros H. constructor; [exact H|]. intros [body|t|t]; constructor. Qed.

Lemma guarded_execute (r : request) : guarded (execute r).
Proof. constructor; [constructor|reflexivity|constructor]. Qed.


Lemma all_calls_get_sheet_ids (P : request -> Prop) (id : string) :
  P (spreadsheets_get id None) -> all_calls P (get_sheet_ids id).
Proof.
  intros H. apply all_calls_bind; [now apply all_calls_execute|]. constructor.
Qed.

Lemma guarded_get_sheet_ids (id : string) : guarded (get_sheet_ids id).
Proof. apply guarded_bind; [apply guarded_execute|]. constructor. Qed.



Lemma eager_input (pr : string) : eager (input pr).
Proof. constructor. intros [l|]; constructor. Qed.



(** *** The scripts, function by function *)

Create HintDb scripts.
#[local] Hint Unfold
  CreateResaleSheet.main CreateResaleSheet.create_spreadsheet
  CreateResaleSheet.setup_inventory_tab CreateResaleSheet.setup_sales_tab
  CreateResaleSheet.setup_shipping_dashboard
  CreateResaleSheet.apply_data_validations CreateResaleSheet.apply_formatting
  CreateResaleSheet.create_inventory_filters
  CreateResaleSheet.create_shipping_filter CreateResaleSheet.on_error
  CreateInventoryForm.main CreateInventoryForm.create_form_for_inventory
  CreateInventoryForm.create_apps_script_instructions
  CreateInventoryForm.on_error
  MigrateToConsolidated.main MigrateToConsolidated.migrate_spreadsheet
  MigrateToConsolidated.on_error
  RemoveConditionColumn.main RemoveConditionColumn.remove_condition_column
  RemoveConditionColumn.on_error
  AddInventoryFilters.main AddInventoryFilters.add_inventory_filters
  AddInventoryFilters.on_error
  AddItemIdDropdown.main AddItemIdDropdown.add_item_id_validation
  AddItemIdDropdown.on_error
  AddEssentialsHoodie.main : scripts.

Ltac by_cases_on_branch :=
  match goal with
  | |- _ (if ?b then _ else _) => destruct b eqn:?
  | |- _ (match ?x with _ => _ end) => destruct x eqn:?
  end.

Ltac quiet_atom :=
  first [ apply quiet_print | apply quiet_input | apply quiet_subscript
        | apply quiet_field | apply quiet_get_credentials
        | apply quiet_read_spreadsheet_id ].

(** Goals [all_calls P p]; the side goals [P r] that do not compute are
    left to the caller. *)
Ltac every_call :=
  repeat first
    [ apply all_calls_bind; [|intros ?]
    | apply all_calls_try; [|intros ?]
    | apply all_calls_execute
    | apply all_calls_get_sheet_ids
    | apply quiet_all; quiet_atom
    | by_cases_on_branch
    | match goal with |- all_calls _ _ => constructor end
    | reflexivity ].

Ltac every_call_guarded :=
  repeat first
    [ apply guarded_bind; [|intros ?]
    | apply guarded_execute
    | apply guarded_get_sheet_ids
    | apply quiet_guarded; quiet_atom
    | by_cases_on_branch
    | match goal with |- guarded _ => constructor end ].




Ltac prints_and_returns :=
  cbn [bind print]; repeat first [by_cases_on_branch | constructor].

Ltac handler_reports :=
  cbn [bind print]; apply reports_here; prints_and_returns.

Ltac take_care :=
  repeat first
    [ apply careful_try;
      [ every_call_guarded
      | intros ?; handler_reports
      | intros []; solve [every_call] ]
    | apply careful_bind; [quiet_atom | intros ?]
    | apply no_calls_careful; solve [every_call]
    | by_cases_on_branch ].

Lemma main_careful (s : script) (sys_argv : list string) :
  careful (main s sys_argv).
Proof.
  destruct s; cbn [main]; autounfold with scripts; take_care.
Qed.







Lemma hoodie_asks_nothing (w : world) (lines : list string) (n : nat) :
  authenticated (fst (run_from AddEssentialsHoodie.main w lines n)) = false.
Proof. reflexivity. Qed.

(** What the scripts write, in runs in which every call succeeds. *)
Lemma formulas_written :
  let t := calls (trace create_resale_sheet [] (Samples.cooperative [])) in
  let u := calls (trace migrate_to_consolidated
                    ["migrate_to_consolidated.py"; "abc"]
                    (Samples.legacy ["y"])) in
  option_map fst (nth_error t 3) =
    Some (values_update "abc" "Inventory!A2" "USER_ENTERED" [[Texts.formula_a2]]) /\
  option_map fst (nth_error t 4) =
    Some (values_update "abc" "Inventory!I2" "USER_ENTERED" [[Texts.formula_i2]]) /\
  option_map fst (nth_error t 7) =
    Some (values_update "abc" "Shipping Dashboard!A2" "USER_ENTERED"
            [[Texts.query_formula]]) /\
  option_map fst (nth_error u 3) =
    Some (values_update "abc" "Inventory!A2" "RAW"
            (Migrate.migrated_rows
               (match r_values Samples.legacy_body with Some v => v | None => [] end))) /\
  option_map fst (nth_error u 4) =
    Some (values_update "abc" "Inventory!A2" "USER_ENTERED" [[Texts.formula_a2]]) /\
  option_map fst (nth_error u 5) =
    Some (values_update "abc" "Inventory!J2" "USER_ENTERED" [[Texts.formula_j2]]) /\
  option_map fst (nth_error u 6) =
    Some (values_update "abc" "Shipping Dashboard!A2" "USER_ENTERED"
            [[Texts.query_formula_migrate]]).
Proof. vm_compute. repeat split. Qed.

(** The printed Apps Script holds the line that builds the Item ID. *)
Lemma script_builds_item_id :
  contains
    (Texts.py "var itemId = category + '-' + brand + '-' + size + '-' + color + '-' + lastRow;")
    CreateInventoryForm.script = true.
Proof. vm_compute. reflexivity. Qed.




End ScriptFacts.

(* ================================================================= *)
(** ** The claims of the specification *)

Module Claims.
Import PyStr SpreadsheetId Formula Sheet Texts Installed AppsScript Migrate.
Import Api Run Common Paths Repository Described.
Import PyStrFacts FormulaFacts MigrateFacts PathFacts ScriptFacts.

(** *** Item ID *)

Lemma nth_set_nth {A : Type} (l : list A) (i : nat) (filler x d : A) :
  nth i (set_nth l i filler x) d = x.
Proof.
  revert l. induction i as [|i IH]; intros [|h t]; cbn; auto.
Qed.

Lemma cell_at_setValue (g : grid) (r c : nat) (v : string) :
  cell_at (setValue g r c v) r c = v.
Proof. unfold cell_at, setValue, cell. now rewrite !nth_set_nth. Qed.

(** C9: the Item ID formula written to Inventory!A2 shows the empty
    string whenever one of the four source cells (Category, Brand, Size,
    Color: columns C to F of the row) is empty, and shows the
    concatenation category-brand-size-color-row when all four are
    non-empty; the same holds in every row the formula is filled down
    to. *)
Theorem item_id_guard (wb : workbook) (fill : nat) :
  let at_column := cell_at (Inventory wb) (2 + fill) in
  item_id wb fill =
    if (at_column 3 =? "") || (at_column 4 =? "") ||
       (at_column 5 =? "") || (at_column 6 =? "")
    then ""
    else joined (at_column 3) (at_column 4) (at_column 5) (at_column 6) (2 + fill).
Proof. apply item_id_value. Qed.

(** C1 (as amended): in a row whose Category, Brand, Size and Color are
    all non-empty, the formula written to Inventory!A2 by
    create_resale_sheet.py and migrate_to_consolidated.py shows
    category-brand-size-color-row; the Apps Script printed by
    create_inventory_form.py writes category-brand-size-color-row into
    column A of the last row with content, whatever the four cells
    hold. *)
Theorem item_id_concatenation (wb : workbook) (fill : nat) (g g' : grid) :
  let at_column := cell_at (Inventory wb) (2 + fill) in
  at_column 3 <> "" -> at_column 4 <> "" ->
  at_column 5 <> "" -> at_column 6 <> "" ->
  onFormSubmit g = Some g' ->
  item_id wb fill =
    joined (at_column 3) (at_column 4) (at_column 5) (at_column 6) (2 + fill) /\
  (let r := getLastRow g in
   cell_at g' r 1 =
     joined (cell_at g r 3) (cell_at g r 4) (cell_at g r 5) (cell_at g r 6) r).
Proof.
  intros at_column Hc Hb Hs Hk Hg. split.
  - rewrite item_id_value. fold at_column.
    apply String.eqb_neq in Hc, Hb, Hs, Hk. now rewrite Hc, Hb, Hs, Hk.
  - unfold onFormSubmit in Hg.
    destruct (Nat.eqb (getLastRow g) 0); [discriminate|].
    injection Hg as <-. cbn zeta. now rewrite cell_at_setValue.
Qed.

Lemma item_id_concatenation_witness :
  item_id Samples.resale 0 = "Tee-Nike-M-Red-2" /\
  cell_at (setValue (Inventory Samples.resale) 4 1
             "Jacket-Levis-L-Blue-4") 4 1 = "Jacket-Levis-L-Blue-4".
Proof.
  apply (item_id_concatenation Samples.resale 0 (Inventory Samples.resale)
           (setValue (Inventory Samples.resale) 4 1 "Jacket-Levis-L-Blue-4"));
    try discriminate; reflexivity.
Defined.

(** C1 (as stated) fails: row 3 of the sample workbook has a Category, a
    Brand and a Size but no Color; the formula, filled down to that row,
    shows the empty string and not the concatenation
    "Hoodie-Essentials-XL--3". *)
Lemma item_id_without_color :
  let at_column := cell_at (Inventory Samples.resale) 3 in
  joined (at_column 3) (at_column 4) (at_column 5) (at_column 6) 3 =
    "Hoodie-Essentials-XL--3" /\
  item_id Samples.resale 1 = "" /\
  item_id Samples.resale 1 <>
    joined (at_column 3) (at_column 4) (at_column 5) (at_column 6) 3.
Proof. repeat split. discriminate. Qed.

(** *** Status *)



(** *** Shipping Dashboard *)



(** *** Filter views *)

(** C4, evaluated on the code: add_inventory_filters.py, run on the
    spreadsheet that create_resale_sheet.py sets up, adds the three
    filter views In Stock, Sold and All Statuses over the columns A to I
    with the criteria on column index 7; in the headers that
    create_resale_sheet.py writes, index 7 is "Date Purchased" and
    "Status" is at index 8, the index that [create_inventory_filters] and
    remove_condition_column.py use; migrate_to_consolidated.py writes
    "Status" at index 9, which the deletion of column 8 moves to 8. *)
Theorem add_inventory_filters_targets_column_7 :
  let argv := ["add_inventory_filters.py"; "abc"] in
  let w := Samples.cooperative [] in
  filter is_filter_view (batch_entries (trace add_inventory_filters argv w)) =
    [ addFilterView "In Stock" (cells 0 0 None 0 9) [(7, ["Sold"])];
      addFilterView "Sold" (cells 0 0 None 0 9) [(7, ["In Stock"])];
      addFilterView "All Statuses" (cells 0 0 None 0 9) [] ] /\
  nth 7 CreateResaleSheet.inventory_headers "" = "Date Purchased" /\
  index_of "Status" CreateResaleSheet.inventory_headers = Some 8 /\
  index_of "Status" MigrateToConsolidated.new_headers = Some 9 /\
  filter is_filter_view (batch_entries (trace create_resale_sheet [] w)) =
    inventory_filter_views 0 11 8 ++
    [ addFilterView "Outstanding Shipments" (cells 2 0 None 0 10)
        [(8, ["delivered"; "local pickup (no shipping)"])] ] /\
  filter is_filter_view
    (batch_entries (trace remove_condition_column
                      ["remove_condition_column.py"; "abc"]
                      (Samples.cooperative ["yes"]))) =
    inventory_filter_views 0 11 8.
Proof. vm_compute. repeat split. Qed.

(** *** Migration *)


(** *** API calls *)






(** C8: in every run of every script, a call that raises HttpError is
    the last call the script sends (no later call, no retry), the error
    line is printed, and the script returns: the exception is not raised
    again. *)
Theorem http_error_stops_the_script (s : script) (sys_argv : list string)
        (w : world) (i : nat) (r : request) (text : string) :
  nth_error (calls (trace s sys_argv w)) i = Some (r, HttpError text) ->
  List.length (calls (trace s sys_argv w)) = S i /\
  ending_of s sys_argv w = Finished /\
  In (error_line text) (printed (trace s sys_argv w)).
Proof.
  unfold trace, ending_of, run. apply careful_run, main_careful.
Qed.

Lemma http_error_stops_the_script_witness :
  List.length (calls (trace create_resale_sheet [] (Samples.failing_at 3 []))) = 4 /\
  ending_of create_resale_sheet [] (Samples.failing_at 3 []) = Finished /\
  In (error_line "<HttpError 404 Not Found>")
     (printed (trace create_resale_sheet [] (Samples.failing_at 3 []))).
Proof.
  apply (http_error_stops_the_script create_resale_sheet []
           (Samples.failing_at 3 []) 3
           (values_update "abc" "Inventory!A2" "USER_ENTERED" [[formula_a2]])
           "<HttpError 404 Not Found>").
  reflexivity.
Defined.

End Claims.

(* ================================================================= *)
(** ** Further properties of the code *)

Module DictFacts.
Import PyStr Api Run Common Parts.

Lemma dict_get_set (d : dict) (key key' : string) (v : N) :
  dict_get (dict_set d key v) key' =
  if key =? key' then Some v else dict_get d key'.
Proof.
  induction d as [|[k x] rest IH]; cbn [dict_set dict_get]; [reflexivity|].
  destruct (String.eqb_spec k key) as [->|Hk]; cbn [dict_get].
  - now destruct (key =? key').
  - rewrite IH. destruct (String.eqb_spec k key') as [->|Hk'];
      [|reflexivity].
    destruct (String.eqb_spec key key'); [congruence|reflexivity].
Qed.

Lemma dict_set_keys (d : dict) (key : string) (v : N) :
  map fst (dict_set d key v) =
  if dict_has d key then map fst d else map fst d ++ [key].
Proof.
  unfold dict_has.
  induction d as [|[k x] rest IH]; cbn [dict_set dict_get map fst app]; [reflexivity|].
  destruct (String.eqb_spec k key) as [->|Hk]; cbn [map fst]; [reflexivity|].
  rewrite IH. now destruct (dict_get rest key).
Qed.

Lemma dict_has_keys (d : dict) (key : string) :
  dict_has d key = true <-> In key (map fst d).
Proof.
  unfold dict_has.
  induction d as [|[k x] rest IH]; cbn [dict_get map fst In]; [easy|].
  destruct (String.eqb_spec k key) as [->|Hk]; [tauto|].
  rewrite IH. tauto.
Qed.

Lemma dict_set_nodup (d : dict) (key : string) (v : N) :
  NoDup (map fst d) -> NoDup (map fst (dict_set d key v)).
Proof.
  intros H. rewrite dict_set_keys.
  destruct (dict_has d key) eqn:E; [exact H|].
  apply NoDup_app; [exact H|repeat constructor; easy|].
  intros x Hx [<-|[]]. apply dict_has_keys in Hx. congruence.
Qed.

Lemma sheet_ids_of_snoc (sheets : list sheet) (s : sheet) :
  sheet_ids_of (sheets ++ [s]) =
  dict_set (sheet_ids_of sheets) (sheet_title s) (sheet_id s).
Proof. unfold sheet_ids_of. now rewrite fold_left_app. Qed.

Lemma sheet_ids_of_get (sheets : list sheet) (title : string) :
  dict_get (sheet_ids_of sheets) title =
  option_map sheet_id (last_titled title sheets).
Proof.
  unfold last_titled.
  induction sheets as [|s l IH] using rev_ind; [reflexivity|].
  rewrite sheet_ids_of_snoc, dict_get_set, rev_unit. cbn [find].
  now destruct (sheet_title s =? title).
Qed.

Lemma sheet_ids_of_has (sheets : list sheet) (title : string) :
  dict_has (sheet_ids_of sheets) title =
  existsb (fun s => sheet_title s =? title) sheets.
Proof.
  unfold dict_has.
  induction sheets as [|s l IH] using rev_ind; [reflexivity|].
  rewrite sheet_ids_of_snoc, dict_get_set, existsb_app. cbn [existsb].
  destruct (sheet_title s =? title); cbn [orb].
  - now rewrite orb_true_r.
  - now rewrite !orb_false_r.
Qed.

(** X1: [get_sheet_ids] maps every title of the metadata to the sheet ID
    of the last sheet carrying that title, holds no other title, and
    holds each title once. *)
Theorem sheet_ids_last_wins (spreadsheet_id : string) (sheets : list sheet) :
  get_sheet_ids spreadsheet_id =
    (sheet_metadata <- execute (spreadsheets_get spreadsheet_id None) ;;
     Ret (sheet_ids_of (sheets_in sheet_metadata))) /\
  (forall title,
     dict_get (sheet_ids_of sheets) title =
     option_map sheet_id (last_titled title sheets)) /\
  (forall title,
     dict_has (sheet_ids_of sheets) title =
     existsb (fun s => sheet_title s =? title) sheets) /\
  NoDup (map fst (sheet_ids_of sheets)).
Proof.
  split; [reflexivity|].
  split; [apply sheet_ids_of_get|].
  split; [apply sheet_ids_of_has|].
  induction sheets as [|s l IH] using rev_ind; [constructor|].
  rewrite sheet_ids_of_snoc. now apply dict_set_nodup.
Qed.

End DictFacts.

(* ================================================================= *)
(** ** More on reading the spreadsheet ID *)

Module PromptFacts.
Import PyStr PyStrFacts SpreadsheetId SpreadsheetIdFacts.

Lemma split_go_cons (sep s : string) (skip : nat) :
  exists h r, split_go sep s skip = h :: r.
Proof.
  revert skip. induction s as [|c t IH]; intros skip; cbn [split_go]; [eauto|].
  destruct skip as [|k]; [|apply IH].
  destruct (prefix sep (String c t)); [eauto|].
  destruct (IH 0) as (h & r & ->). eauto.
Qed.

(** [s.split(sep)] is [[s]] when [sep] does not occur in [s]. *)
Lemma split_whole (sep s : string) :
  contains sep s = false -> split sep s = [s].
Proof.
  unfold split. induction s as [|c t IH]; intros H; [reflexivity|].
  cbn [contains] in H. apply orb_false_iff in H. destruct H as [Hp Hc].
  cbn [split_go]. rewrite Hp, IH by assumption. reflexivity.
Qed.

(** [s.split(sep)] has at least two parts when [sep] occurs in [s]. *)
Lemma split_found (sep s : string) :
  sep <> "" -> contains sep s = true ->
  exists a b r, split sep s = a :: b :: r.
Proof.
  intros Hsep. unfold split. induction s as [|c t IH]; intros H.
  - destruct sep; [contradiction|discriminate].
  - cbn [contains] in H. cbn [split_go].
    destruct (prefix sep (String c t)) eqn:Hp.
    + destruct (split_go_cons sep t (String.length sep - 1)) as (h & r & ->). eauto.
    + cbn [orb] in H. destruct (IH H) as (a & b & r & ->). eauto.
Qed.

(** No part of [s.split('/')] holds a slash. *)
Lemma split_slash_fields (s : string) :
  Forall (fun f => contains "/" f = false) (split "/" s).
Proof.
  unfold split. induction s as [|c t IH]; [now repeat constructor|].
  cbn [split_go prefix String.length Nat.sub].
  destruct (ascii_dec "/" c) as [E|Hne].
  - destruct t; (constructor; [reflexivity|exact IH]).
  - destruct (split_go_cons "/" t 0) as (h & r & E). rewrite E in *.
    inversion IH as [|? ? Hh Hr]; subst. constructor; [|exact Hr].
    cbn [contains prefix]. destruct (ascii_dec "/" c); [contradiction|exact Hh].
Qed.

Lemma hd_split_slash (id rest : string) :
  contains "/" id = false ->
  hd "" (split "/" (id ++ String "/" rest)) = id.
Proof.
  unfold split. induction id as [|c t IH]; intros H.
  - cbn [append split_go prefix]. destruct (ascii_dec "/" "/"); [|contradiction].
    now destruct rest.
  - pose proof (contains_head _ _ _ H) as Hne. apply contains_cons in H.
    cbn [append split_go prefix]. destruct (ascii_dec "/" c); [contradiction|].
    specialize (IH H).
    destruct (split_go_cons "/" (t ++ String "/" rest) 0) as (h & r & E).
    rewrite E in *. cbn [hd] in *. now subst.
Qed.

(** The first part of [(id + '/' + rest).split('/d/')] starts with [id]
    and goes on, if at all, with a slash. *)
Lemma first_part (id rest : string) :
  contains "/" id = false ->
  exists x r, split "/d/" (id ++ String "/" rest) = (id ++ x)%string :: r /\
              (x = "" \/ exists y, x = String "/" y).
Proof.
  unfold split. induction id as [|c t IH]; intros H.
  - cbn [append split_go].
    destruct (prefix "/d/" (String "/" rest)).
    + exists "", (split_go "/d/" rest (String.length "/d/" - 1)). auto.
    + destruct (split_go_cons "/d/" rest 0) as (h & r & ->).
      exists (String "/" h), r. eauto.
  - pose proof (contains_head _ _ _ H) as Hne. apply contains_cons in H.
    destruct (IH H) as (x & r & E & Hx).
    cbn [append split_go prefix]. destruct (ascii_dec "/" c); [contradiction|].
    rewrite E. exists x, r. auto.
Qed.

Lemma url_split_any (rest : string) :
  split "/d/" (spreadsheet_url rest) =
  "https://docs.google.com/spreadsheets" :: split "/d/" rest.
Proof.
  unfold split, spreadsheet_url. cbn [append].
  destruct (split_go_cons "/d/" rest 0) as (h & r & E). rewrite E.
  do 36 (apply split_go_miss; [reflexivity|]).
  assert (Hp : prefix "/d/" ("/d/" ++ rest) = true) by (cbn; now destruct rest).
  cbn [append] in Hp. cbn [split_go]. rewrite Hp. cbn. now rewrite E.
Qed.

Lemma rstrip_before_slash (a rest : string) :
  rstrip (a ++ String "/" rest) = (a ++ String "/" (rstrip rest))%string.
Proof.
  induction a as [|c t IH].
  - cbn [append]. now apply rstrip_cons.
  - cbn [append rstrip]. rewrite IH. now destruct t.
Qed.

(** X2: a pasted URL is read up to the first slash after the ID:
    whatever follows "https://docs.google.com/spreadsheets/d/<id>/"
    (such as "edit#gid=0", further "/d/" parts or blanks), the prompt
    branch of [main] returns the ID, for every ID without a slash. *)
Theorem parse_input_url_with_path (id rest : string) :
  contains "/" id = false ->
  parse_input (spreadsheet_url id ++ String "/" rest) = Some id.
Proof.
  intros H. unfold parse_input, strip.
  change (spreadsheet_url id ++ String "/" rest)%string
    with (String "h" ("ttps://docs.google.com/spreadsheets/d/" ++ id ++ String "/" rest)%string).
  cbn [lstrip]. change (is_space "h") with false. cbn iota.
  change (String "h" ("ttps://docs.google.com/spreadsheets/d/" ++ id ++ String "/" rest)%string)
    with (("https://docs.google.com/spreadsheets/d/" ++ id) ++ String "/" rest)%string.
  rewrite rstrip_before_slash.
  change (("https://docs.google.com/spreadsheets/d/" ++ id) ++ String "/" (rstrip rest))%string
    with (spreadsheet_url (id ++ String "/" (rstrip rest))).
  unfold extract_id. rewrite url_contains_marker, url_split_any.
  destruct (first_part id (rstrip rest) H) as (x & r & -> & [->|(y & ->)]).
  - replace (id ++ "")%string with id by (clear; induction id; cbn; congruence).
    now rewrite (split_no_slash "" id H).
  - now rewrite hd_split_slash.
Qed.

Lemma parse_input_url_with_path_witness :
  parse_input (spreadsheet_url "1AbC_x-9" ++ "/edit#gid=0") = Some "1AbC_x-9".
Proof.
  apply (parse_input_url_with_path "1AbC_x-9" "edit#gid=0"). reflexivity.
Defined.

(** X3: the prompt branch gives up ("Could not parse spreadsheet ID
    from URL", exit status 1) exactly when the stripped input mentions
    'docs.google.com/spreadsheets' and holds no '/d/'. *)
Theorem parse_input_gives_up (line : string) :
  parse_input line = None <->
  contains "docs.google.com/spreadsheets" (strip line) = true /\
  contains "/d/" (strip line) = false.
Proof.
  unfold parse_input, extract_id.
  generalize (strip line). clear line. intros s.
  destruct (contains "docs.google.com/spreadsheets" s); [|now split; [|intros []]].
  destruct (contains "/d/" s) eqn:Hd.
  - destruct (split_found "/d/" s) as (a & b & r & ->); [discriminate|exact Hd|].
    split; [discriminate|intros [_ ?]; discriminate].
  - rewrite split_whole by exact Hd. now split.
Qed.

(** X4: an ID taken out of a URL never holds a slash. *)
Theorem extracted_id_has_no_slash (line id : string) :
  contains "docs.google.com/spreadsheets" (strip line) = true ->
  parse_input line = Some id ->
  contains "/" id = false.
Proof.
  unfold parse_input, extract_id. intros ->.
  destruct (split "/d/" (strip line)) as [|p0 [|p1 r]]; try discriminate.
  intros [= <-]. pose proof (split_slash_fields p1) as F.
  destruct (split "/" p1) as [|h t]; [reflexivity|].
  now inversion F.
Qed.

Lemma extracted_id_has_no_slash_witness :
  contains "/" "abc" = false.
Proof.
  apply (extracted_id_has_no_slash
           " https://docs.google.com/spreadsheets/d/abc/edit  " "abc");
    reflexivity.
Defined.

End PromptFacts.

(* ================================================================= *)
(** ** Reasoning on all the runs of a script *)

Module HoareFacts.
Import PyStr Api Run Common Hoare.

Section Rules.
Context {A B : Type}.

(** What holds on every branch holds in every run. *)
Lemma every_run_sound (p : prog A) (Q : list event -> outcome A -> Prop) :
  every_run p Q ->
  forall w lines n,
    exists o, Q (fst (run_from p w lines n)) o /\
              snd (run_from p w lines n) = stops o.
Proof.
  revert Q. induction p as [a|e|c|l k IH|pr k IH|sc k IH|r k IH];
    intros Q H w lines n; cbn [every_run run_from] in *.
  - now exists (Done a).
  - now exists (Thrown e).
  - now exists (Quit c).
  - destruct (IH _ H w lines n) as (o & Ho & He).
    destruct (run_from k w lines n) as [t e]. now exists o.
  - destruct lines as [|l rest].
    + destruct (IH None _ (H None) w [] n) as (o & Ho & He).
      destruct (run_from (k None) w [] n) as [t e]. now exists o.
    + destruct (IH (Some l) _ (H (Some l)) w rest n) as (o & Ho & He).
      destruct (run_from (k (Some l)) w rest n) as [t e]. now exists o.
  - destruct (IH (auth w) _ (H (auth w)) w lines n) as (o & Ho & He).
    destruct (run_from (k (auth w)) w lines n) as [t e]. now exists o.
  - destruct (IH (replies w n r) _ (H (replies w n r)) w lines (S n))
      as (o & Ho & He).
    destruct (run_from (k (replies w n r)) w lines (S n)) as [t e].
    now exists o.
Qed.

Lemma every_run_bind (p : prog A) (f : A -> prog B)
      (Q : list event -> outcome B -> Prop) :
  every_run p (fun t o =>
    match o with
    | Done a => every_run (f a) (fun t' o' => Q (t ++ t') o')
    | Thrown e => Q t (Thrown e)
    | Quit c => Q t (Quit c)
    end) ->
  every_run (bind p f) Q.
Proof.
  revert Q. induction p as [a|e|c|l k IH|pr k IH|sc k IH|r k IH];
    intros Q H; cbn [every_run bind] in *; auto.
Qed.

End Rules.

Lemma every_run_try {A : Type} (p : prog A) (handler : exn -> prog A)
      (Q : list event -> outcome A -> Prop) :
  every_run p (fun t o =>
    match o with
    | Thrown e => every_run (handler e) (fun t' o' => Q (t ++ t') o')
    | Done a => Q t (Done a)
    | Quit c => Q t (Quit c)
    end) ->
  every_run (try_except p handler) Q.
Proof.
  revert Q. induction p as [a|e|c|l k IH|pr k IH|sc k IH|r k IH];
    intros Q H; cbn [every_run try_except] in *; auto.
Qed.

Lemma every_run_weaken {A : Type} (p : prog A)
      (Q Q' : list event -> outcome A -> Prop) :
  (forall t o, Q t o -> Q' t o) -> every_run p Q -> every_run p Q'.
Proof.
  revert Q Q'. induction p as [a|e|c|l k IH|pr k IH|sc k IH|r k IH];
    intros Q Q' HQ H; cbn [every_run] in *; auto.
  - eapply IH; [|exact H]. auto.
  - intros a. eapply IH; [|apply H]. auto.
  - intros a. eapply IH; [|apply H]. auto.
  - intros x. eapply IH; [|apply H]. auto.
Qed.

(** In a run, what authentication answers is what the world holds. *)
Lemma auth_replies_run {A : Type} (p : prog A) (w : world)
      (lines : list string) (n : nat) (sc : list string) (r : auth_reply) :
  In (Authenticated sc r) (fst (run_from p w lines n)) -> r = auth w.
Proof.
  revert lines n. induction p as [a|e|c|l k IH|pr k IH|sc' k IH|r' k IH];
    intros lines n; cbn [run_from]; try (intros []).
  - specialize (IH lines n). destruct (run_from k w lines n) as [t e].
    cbn [fst In] in *. intros [H|H]; [discriminate|auto].
  - destruct lines as [|l rest].
    + specialize (IH None [] n). destruct (run_from (k None) w [] n) as [t e].
      cbn [fst In] in *. intros [H|H]; [discriminate|auto].
    + specialize (IH (Some l) rest n).
      destruct (run_from (k (Some l)) w rest n) as [t e].
      cbn [fst In] in *. intros [H|H]; [discriminate|auto].
  - specialize (IH (auth w) lines n).
    destruct (run_from (k (auth w)) w lines n) as [t e].
    cbn [fst In] in *. intros [H|H]; [now injection H|auto].
  - specialize (IH (replies w n r') lines (S n)).
    destruct (run_from (k (replies w n r')) w lines (S n)) as [t e].
    cbn [fst In] in *. intros [H|H]; [discriminate|auto].
Qed.

End HoareFacts.

(* ================================================================= *)
(** ** The scripts, branch by branch *)

Module RunFacts.
Import PyStr SpreadsheetId Api Run Common Texts Repository Paths Parts Hoare Asked.
Import HoareFacts DictFacts.

Create HintDb mains.
#[local] Hint Unfold
  CreateResaleSheet.main CreateResaleSheet.create_spreadsheet
  CreateResaleSheet.setup_inventory_tab CreateResaleSheet.setup_sales_tab
  CreateResaleSheet.setup_shipping_dashboard
  CreateResaleSheet.apply_data_validations CreateResaleSheet.apply_formatting
  CreateResaleSheet.create_inventory_filters
  CreateResaleSheet.create_shipping_filter CreateResaleSheet.on_error
  CreateInventoryForm.main CreateInventoryForm.create_form_for_inventory
  CreateInventoryForm.create_apps_script_instructions
  CreateInventoryForm.on_error
  MigrateToConsolidated.main MigrateToConsolidated.migrate_spreadsheet
  MigrateToConsolidated.on_error
  RemoveConditionColumn.main RemoveConditionColumn.remove_condition_column
  RemoveConditionColumn.on_error
  AddInventoryFilters.main AddInventoryFilters.add_inventory_filters
  AddInventoryFilters.on_error
  AddItemIdDropdown.main AddItemIdDropdown.add_item_id_validation
  AddItemIdDropdown.on_error
  AddEssentialsHoodie.main AddEssentialsHoodie.print_all
  get_sheet_ids read_spreadsheet_id subscript get_credentials
  print input execute field : mains.

Lemma dict_has_fold (body : response) (title : string) :
  dict_has
    (fold_left (fun d s => dict_set d (sheet_title s) (sheet_id s))
       match r_sheets body with Some l => l | None => [] end [])
    title = has_tab body title.
Proof. apply sheet_ids_of_has. Qed.

(** A request or a line gets a name on its way into the trace. *)
Lemma every_run_call {A : Type} (r : request) (k : reply -> prog A)
      (Q : list event -> outcome A -> Prop) :
  (forall sent, sent = r ->
   forall x, every_run (k x) (fun t o => Q (Called sent x :: t) o)) ->
  every_run (Call r k) Q.
Proof. intros H x. now apply H. Qed.

Lemma every_run_print {A : Type} (l : string) (k : prog A)
      (Q : list event -> outcome A -> Prop) :
  (forall line, line = l -> every_run k (fun t o => Q (Printed line :: t) o)) ->
  every_run (Print l k) Q.
Proof. intros H. now apply H. Qed.


(** One step down the program: a rule for [bind] and [try], a case
    distinction where the program branches, a new name where the outside
    answers. *)
Ltac walk_step :=
  lazymatch goal with
  | |- every_run (bind _ _) _ => apply every_run_bind
  | |- every_run (try_except _ _) _ => apply every_run_try
  | |- every_run (if ?b then _ else _) _ => destruct b eqn:?
  | |- every_run (match ?x with _ => _ end) _ => destruct x eqn:?
  | |- every_run (fold_right _ _ _) _ => cbn [fold_right]
  | |- every_run (Ret _) _ => cbn [every_run app]
  | |- every_run (Raise _) _ => cbn [every_run app]
  | |- every_run (Exit _) _ => cbn [every_run app]
  | |- every_run (Print _ _) _ => apply every_run_print; intros ? ?
  | |- every_run (Input _ _) _ => cbn [every_run app]; intros ?
  | |- every_run (Authenticate _ _) _ => cbn [every_run app]; intros ?
  | |- every_run (Call _ _) _ => apply every_run_call; intros ? ? ?
  | |- every_run _ _ => progress (autounfold with mains; cbv zeta)
  end.

Ltac walk := repeat walk_step.

(** The goal at the end of a branch, with the events listed. *)
Ltac at_the_end :=
  cbn [app calls printed stops authenticated attempted denied starved refused
       existsb forallb orb andb snd returned List.length].

Ltac find_line := subst; cbn [In]; repeat first [left; reflexivity | right].

(** Which call of a listed trace the [i]-th one is. *)
Ltac which_call H i :=
  lazymatch type of H with
  | nth_error [] _ = _ => destruct i; discriminate H
  | nth_error (_ :: _) _ = _ =>
      destruct i as [|i]; cbn [nth_error] in H; [|which_call H i]
  end.

Ltac failed_call :=
  let nth := fresh "nth" in let req := fresh "req" in
  let why := fresh "why" in let H := fresh "H" in
  intros nth req why H; cbn [app calls] in H; which_call H nth;
  try discriminate H;
  injection H as <- <-; repeat split; try reflexivity; find_line.

Ltac calls_authenticated :=
  let H := fresh "H" in
  intros H; first [reflexivity | now elim H].

Ltac when_denied :=
  let H := fresh "H" in
  intros H; first [discriminate H | repeat split; try reflexivity; find_line].

Ltac which_line H :=
  lazymatch type of H with
  | False => contradiction
  | _ \/ _ => destruct H as [H|H]; [|which_line H]
  | _ => idtac
  end.

Ltac when_refused :=
  let text := fresh "text" in let H := fresh "H" in
  intros text H;
  first [ discriminate H
        | rewrite ?orb_false_r in H; apply String.eqb_eq in H; subst;
          repeat split; try reflexivity; find_line ].

Ltac when_starved :=
  let H := fresh "H" in
  intros H; first [discriminate H | repeat split; reflexivity].

Ltac line_differs H :=
  first [ discriminate H
        | cbv [newline append unexpected_line credentials_line] in H; discriminate H
        | cbv in H; discriminate H ].

Ltac url_shown :=
  let id := fresh "id" in let l := fresh "l" in
  let Hl := fresh "Hl" in let Hin := fresh "Hin" in
  intros id l Hl Hin; cbn [url_line] in Hl;
  first [ discriminate Hl
        | injection Hl as <-; cbn [In] in Hin;
          subst;
          repeat (destruct Hin as [Hin|Hin]; [try line_differs Hin|]);
          try contradiction; split; reflexivity ].

Ltac exception_leaves :=
  let e := fresh "e" in let H := fresh "H" in
  intros e H;
  first [ discriminate H
        | injection H as <-;
          first [ left; split; reflexivity
                | right; split; [reflexivity|];
                  split; [intros ? ?; discriminate|find_line] ] ].

Ltac tab_missing :=
  let r := fresh "r" in let body := fresh "body" in
  let rest := fresh "rest" in let H := fresh "H" in let Hl := fresh "Hl" in
  intros r body rest H Hl;
  cbn [lacks_a_tab required_tabs existsb] in Hl;
  first [ discriminate Hl
        | discriminate H
        | injection H as ? ? ?; subst;
          first [ split; reflexivity
                | exfalso; rewrite ?dict_has_fold in *;
                  repeat match goal with
                         | E : context [has_tab ?b ?t] |- _ => destruct (has_tab b t)
                         end;
                  discriminate ] ].

Ltac created_id :=
  let r := fresh "r" in let body := fresh "body" in
  let rest := fresh "rest" in let H := fresh "H" in let Hc := fresh "Hc" in
  intros r body rest H Hc;
  first [ discriminate H
        | injection H as ? ? ?; subst; cbn [creates] in Hc;
          first [ discriminate Hc
                | repeat constructor; cbn [fst target created]; congruence ] ].

Ltac given_id :=
  let id := fresh "id" in let He := fresh "He" in let Hg := fresh "Hg" in
  intros id He Hg; cbn [edits_existing required_tabs] in He;
  first [ discriminate He
        | cbn [given] in Hg; subst; repeat constructor;
          cbn [fst target]; congruence ].

Ltac sheet_deleted :=
  let nth := fresh "nth" in let req := fresh "req" in let x := fresh "x" in
  let Hs := fresh "Hs" in let H := fresh "H" in let Hd := fresh "Hd" in
  intros nth req x Hs H Hd;
  first [ discriminate Hs
        | which_call H nth; injection H as <- <-;
          match type of Hd with
          | deletes_sheet ?v = _ =>
              match goal with E : v = _ |- _ => rewrite E in Hd end
          end;
          cbn [deletes_sheet existsb orb dropdown] in Hd;
          first [ discriminate Hd
                | repeat split; try reflexivity; repeat constructor ] ].

Ltac consent_given :=
  let pr := fresh "pr" in let a := fresh "a" in
  let Hp := fresh "Hp" in let Ha := fresh "Ha" in let Hd := fresh "Hd" in
  intros pr a Hp Ha Hd; cbn [confirm_prompt] in Hp;
  first [ discriminate Hp
        | reflexivity
        | injection Hp as <-; cbn in Ha;
          first [ discriminate Ha
                | injection Ha as <-; unfold declined in Hd; congruence ] ].

Ltac branch_is_orderly :=
  unfold orderly; cbn [raises_again]; at_the_end;
  split; [failed_call|];
  split; [calls_authenticated|];
  split; [when_denied|];
  split; [when_refused|];
  split; [when_starved|];
  split; [url_shown|];
  split; [exception_leaves|];
  split; [tab_missing|];
  split; [created_id|];
  split; [given_id|];
  split; [sheet_deleted|consent_given].

(** Every branch of every [main] is orderly. *)
Lemma main_orderly (s : script) (sys_argv : list string) :
  every_run (main s sys_argv) (orderly s sys_argv).
Proof.
  match goal with |- every_run _ ?q => set (Q := q) end.
  destruct s; cbn [main] in *; walk.
  all: subst Q; cbv beta; branch_is_orderly.
Qed.

Lemma orderly_run (s : script) (sys_argv : list string) (w : world) :
  exists o, orderly s sys_argv (trace s sys_argv w) o /\
            ending_of s sys_argv w = stops o.
Proof. apply (every_run_sound _ _ (main_orderly s sys_argv)). Qed.

End RunFacts.

(* ================================================================= *)
(** ** What the runs of the scripts show *)

Module Runs.
Import PyStr SpreadsheetId Api Run Common Texts Repository Paths Parts Hoare Asked.
Import PathFacts HoareFacts RunFacts.

(** X5: a call that fails with an exception other than HttpError is
    the last call of the run and the line "Unexpected error: ..." is
    printed; create_resale_sheet.py, create_inventory_form.py,
    migrate_to_consolidated.py and remove_condition_column.py then raise
    the exception again, add_inventory_filters.py and
    add_item_id_dropdown.py return. *)
Theorem failed_call_stops_the_script (s : script) (sys_argv : list string)
        (w : world) (i : nat) (r : request) (text : string) :
  nth_error (calls (trace s sys_argv w)) i = Some (r, Failed text) ->
  List.length (calls (trace s sys_argv w)) = S i /\
  In (unexpected_line text) (printed (trace s sys_argv w)) /\
  ending_of s sys_argv w =
    if raises_again s then Uncaught (OtherExn text) else Finished.
Proof.
  destruct (orderly_run s sys_argv w) as (o & H & ->). apply H.
Qed.

Lemma failed_call_stops_the_script_witness :
  List.length (calls (trace create_resale_sheet [] (Worlds.broken_at 3 []))) = 4 /\
  In (unexpected_line "timed out")
     (printed (trace create_resale_sheet [] (Worlds.broken_at 3 []))) /\
  ending_of create_resale_sheet [] (Worlds.broken_at 3 []) =
    Uncaught (OtherExn "timed out").
Proof.
  apply (failed_call_stops_the_script create_resale_sheet []
           (Worlds.broken_at 3 []) 3
           (values_update "abc" "Inventory!A2" "USER_ENTERED" [[formula_a2]])
           "timed out").
  reflexivity.
Defined.

(** X6: when [get_credentials] raises (a failed refresh or consent
    flow), no call is sent, "Unexpected error: ..." is printed, and the
    exception is raised again by the four scripts whose last [except]
    clause ends with [raise] and swallowed by the other two. *)
Theorem failed_authentication_is_reported (s : script) (sys_argv : list string)
        (w : world) (text : string) :
  refused text (trace s sys_argv w) = true ->
  calls (trace s sys_argv w) = [] /\
  In (unexpected_line text) (printed (trace s sys_argv w)) /\
  ending_of s sys_argv w =
    if raises_again s then Uncaught (OtherExn text) else Finished.
Proof.
  destruct (orderly_run s sys_argv w) as (o & H & ->). apply H.
Qed.

Lemma failed_authentication_is_reported_witness :
  calls (trace add_inventory_filters ["add_inventory_filters.py"; "abc"]
           (Worlds.refusing [])) = [] /\
  In (unexpected_line "access_denied")
     (printed (trace add_inventory_filters ["add_inventory_filters.py"; "abc"]
                (Worlds.refusing []))) /\
  ending_of add_inventory_filters ["add_inventory_filters.py"; "abc"]
    (Worlds.refusing []) = Finished.
Proof.
  apply (failed_authentication_is_reported add_inventory_filters
           ["add_inventory_filters.py"; "abc"] (Worlds.refusing [])
           "access_denied").
  reflexivity.
Defined.

(** X7: no script sends a call before [get_credentials] has returned
    credentials: a run with a call is a run in which authentication was
    granted. *)
Theorem calls_need_credentials (s : script) (sys_argv : list string) (w : world) :
  calls (trace s sys_argv w) <> [] ->
  authenticated (trace s sys_argv w) = true /\ auth w = Granted.
Proof.
  intros Hc.
  destruct (orderly_run s sys_argv w) as (o & H & _).
  destruct H as (_ & Ha & _). specialize (Ha Hc). split; [exact Ha|].
  unfold trace, run in Ha. now apply authenticated_granted in Ha.
Qed.

Lemma calls_need_credentials_witness :
  authenticated (trace create_inventory_form ["create_inventory_form.py"; "abc"]
                   (Samples.cooperative [])) = true /\
  auth (Samples.cooperative []) = Granted.
Proof.
  apply (calls_need_credentials create_inventory_form
           ["create_inventory_form.py"; "abc"] (Samples.cooperative [])).
  discriminate.
Defined.

(** X8: when credentials.json is missing, [get_credentials] prints
    "Error: credentials.json not found!" and the script exits with
    status 1 without a single call: [exit(1)] passes through the
    [except] clauses of [main]. *)
Theorem missing_credentials_file (s : script) (sys_argv : list string) (w : world) :
  denied (trace s sys_argv w) = true ->
  calls (trace s sys_argv w) = [] /\
  ending_of s sys_argv w = Exited 1 /\
  In credentials_line (printed (trace s sys_argv w)).
Proof.
  destruct (orderly_run s sys_argv w) as (o & H & ->). apply H.
Qed.

Lemma missing_credentials_file_witness :
  calls (trace create_resale_sheet [] (Worlds.without_credentials [])) = [] /\
  ending_of create_resale_sheet [] (Worlds.without_credentials []) = Exited 1 /\
  In credentials_line
     (printed (trace create_resale_sheet [] (Worlds.without_credentials []))).
Proof.
  apply (missing_credentials_file create_resale_sheet []
           (Worlds.without_credentials [])).
  reflexivity.
Defined.

(** X9: the prompts stand outside the [try] of [main]: when the input
    ends at a prompt, the run ends with the EOFError of [input], before
    any authentication and any call. *)
Theorem end_of_input_at_a_prompt (s : script) (sys_argv : list string) (w : world) :
  starved (trace s sys_argv w) = true ->
  calls (trace s sys_argv w) = [] /\
  authenticated (trace s sys_argv w) = false /\
  ending_of s sys_argv w = Uncaught EOFError.
Proof.
  destruct (orderly_run s sys_argv w) as (o & H & ->). apply H.
Qed.

Lemma end_of_input_at_a_prompt_witness :
  calls (trace migrate_to_consolidated ["migrate_to_consolidated.py"; "abc"]
           (Samples.cooperative [])) = [] /\
  authenticated (trace migrate_to_consolidated
                   ["migrate_to_consolidated.py"; "abc"]
                   (Samples.cooperative [])) = false /\
  ending_of migrate_to_consolidated ["migrate_to_consolidated.py"; "abc"]
    (Samples.cooperative []) = Uncaught EOFError.
Proof.
  apply (end_of_input_at_a_prompt migrate_to_consolidated
           ["migrate_to_consolidated.py"; "abc"] (Samples.cooperative [])).
  reflexivity.
Defined.

(** X10: the line with the URL of the spreadsheet is printed only in
    runs in which every call returned, and such a run ends by
    returning. *)
Theorem url_line_means_success (s : script) (sys_argv : list string)
        (w : world) (id l : string) :
  url_line s id = Some l ->
  In l (printed (trace s sys_argv w)) ->
  ending_of s sys_argv w = Finished /\
  forallb (fun c => returned (snd c)) (calls (trace s sys_argv w)) = true.
Proof.
  destruct (orderly_run s sys_argv w) as (o & H & ->). apply H.
Qed.

Lemma url_line_means_success_witness :
  ending_of add_item_id_dropdown ["add_item_id_dropdown.py"; "abc"]
    (Samples.cooperative []) = Finished /\
  forallb (fun c => returned (snd c))
    (calls (trace add_item_id_dropdown ["add_item_id_dropdown.py"; "abc"]
              (Samples.cooperative []))) = true.
Proof.
  apply (url_line_means_success add_item_id_dropdown
           ["add_item_id_dropdown.py"; "abc"] (Samples.cooperative [])
           "abc" (newline ++ "View your sheet: " ++ spreadsheet_url "abc")).
  - reflexivity.
  - cbn. auto.
Defined.

(** X11: an exception leaves a script only as the EOFError of a prompt
    or, in the four scripts whose last [except] clause ends with
    [raise], after the line "Unexpected error: <the exception>" has been
    printed; an HttpError never leaves, and add_inventory_filters.py and
    add_item_id_dropdown.py let nothing out of their [try]. *)
Theorem exceptions_that_leave (s : script) (sys_argv : list string)
        (w : world) (e : exn) :
  ending_of s sys_argv w = Uncaught e ->
  e = EOFError /\ starved (trace s sys_argv w) = true \/
  raises_again s = true /\
  (forall text, e <> HttpErr text) /\
  In (unexpected_line (exn_text e)) (printed (trace s sys_argv w)).
Proof.
  destruct (orderly_run s sys_argv w) as (o & H & ->). apply H.
Qed.

Lemma exceptions_that_leave_witness :
  KeyError "spreadsheetId" = EOFError /\
  starved (trace create_resale_sheet [] (Worlds.terse [])) = true \/
  raises_again create_resale_sheet = true /\
  (forall text, KeyError "spreadsheetId" <> HttpErr text) /\
  In (unexpected_line (exn_text (KeyError "spreadsheetId")))
     (printed (trace create_resale_sheet [] (Worlds.terse []))).
Proof.
  apply (exceptions_that_leave create_resale_sheet [] (Worlds.terse [])
           (KeyError "spreadsheetId")).
  reflexivity.
Defined.

(** X12: migrate_to_consolidated.py, remove_condition_column.py,
    add_inventory_filters.py and add_item_id_dropdown.py change nothing
    in a spreadsheet that lacks one of the tabs they look for
    (Purchases and Inventory; Inventory; Inventory; Sales and
    Inventory): the read of the sheet metadata is then the only call of
    the run. *)
Theorem missing_tab_changes_nothing (s : script) (sys_argv : list string)
        (w : world) (r : request) (body : response)
        (rest : list (request * reply)) :
  calls (trace s sys_argv w) = (r, Returned body) :: rest ->
  lacks_a_tab s body = true ->
  rest = [] /\ writes r = false.
Proof.
  destruct (orderly_run s sys_argv w) as (o & H & _). apply H.
Qed.

Lemma missing_tab_changes_nothing_witness :
  @nil (request * reply) = [] /\ writes (spreadsheets_get "abc" None) = false.
Proof.
  apply (missing_tab_changes_nothing migrate_to_consolidated
           ["migrate_to_consolidated.py"; "abc"] (Samples.cooperative ["yes"])
           (spreadsheets_get "abc" None) Samples.body []).
  - reflexivity.
  - reflexivity.
Defined.

(** X13: create_resale_sheet.py and create_inventory_form.py address
    every later call to the ID that their create call returned
    ([spreadsheet['spreadsheetId']], [result['formId']]); when the
    reply holds no such key, no later call is sent. *)
Theorem created_id_is_addressed (s : script) (sys_argv : list string)
        (w : world) (r : request) (body : response)
        (rest : list (request * reply)) :
  calls (trace s sys_argv w) = (r, Returned body) :: rest ->
  creates r = true ->
  Forall (fun c => target (fst c) = created r body /\ created r body <> None)
         rest.
Proof.
  destruct (orderly_run s sys_argv w) as (o & H & _). apply H.
Qed.

Lemma created_id_is_addressed_witness :
  Forall (fun c => target (fst c) =
                     created (forms_create "Add Inventory Item"
                                "Clothing Resale - Add Inventory") Samples.body /\
                   created (forms_create "Add Inventory Item"
                              "Clothing Resale - Add Inventory") Samples.body <> None)
         [(forms_batchUpdate "form1" CreateInventoryForm.form_fields,
           Returned Samples.body)].
Proof.
  apply (created_id_is_addressed create_inventory_form
           ["create_inventory_form.py"; "abc"] (Samples.cooperative [])).
  - reflexivity.
  - reflexivity.
Defined.



(** X15: migrate_to_consolidated.py deletes the Purchases sheet with
    its last call only: at least seven calls come before it (the two
    reads, the header row, the formulas, the dropdowns and, when there
    are rows, the copy of the rows), every one of them returned, and no
    call follows. *)
Theorem purchases_deleted_last (sys_argv : list string) (w : world)
        (i : nat) (r : request) (x : reply) :
  let sent := calls (trace migrate_to_consolidated sys_argv w) in
  nth_error sent i = Some (r, x) ->
  deletes_sheet r = true ->
  List.length sent = S i /\ 7 <= i /\
  forallb (fun c => returned (snd c)) (firstn i sent) = true.
Proof.
  destruct (orderly_run migrate_to_consolidated sys_argv w) as (o & H & _).
  intros sent. apply H. reflexivity.
Qed.

Lemma purchases_deleted_last_witness :
  let sent := calls (trace migrate_to_consolidated
                       ["migrate_to_consolidated.py"; "abc"]
                       (Samples.legacy ["yes"])) in
  List.length sent = 9 /\ 7 <= 8 /\
  forallb (fun c => returned (snd c)) (firstn 8 sent) = true.
Proof.
  apply (purchases_deleted_last ["migrate_to_consolidated.py"; "abc"]
           (Samples.legacy ["yes"]) 8
           (spreadsheets_batchUpdate "abc" [deleteSheet 3])
           (Returned Samples.legacy_body)).
  - reflexivity.
  - reflexivity.
Defined.

(** X24: consent is enough: when the answer to the confirmation prompt
    of migrate_to_consolidated.py or remove_condition_column.py,
    stripped and lowercased, is "yes" or "y", the script goes on to
    [get_credentials]. *)
Theorem consent_leads_to_authentication (s : script) (prompt : string)
        (sys_argv : list string) (w : world) (a : string) :
  confirm_prompt s = Some prompt ->
  hd_error (answers prompt (trace s sys_argv w)) = Some a ->
  declined a = false ->
  attempted (trace s sys_argv w) = true.
Proof.
  destruct (orderly_run s sys_argv w) as (o & H & _). apply H.
Qed.

Lemma consent_leads_to_authentication_witness :
  attempted (trace remove_condition_column ["remove_condition_column.py"; "abc"]
               (Samples.cooperative [" Yes "])) = true.
Proof.
  apply (consent_leads_to_authentication remove_condition_column
           RemoveConditionColumn.confirm_prompt
           ["remove_condition_column.py"; "abc"]
           (Samples.cooperative [" Yes "]) " Yes ");
    reflexivity.
Defined.

End Runs.

(* ================================================================= *)
(** ** Item IDs, statuses and the dashboard *)

Module ItemIdFacts.
Import PyStr Sheet Installed AppsScript Described PyStrFacts FormulaFacts.

Lemma digits_no_dash (d : Decimal.uint) :
  contains "-" (NilEmpty.string_of_uint d) = false.
Proof.
  induction d; cbn [NilEmpty.string_of_uint]; [reflexivity|..];
    cbn [contains prefix];
    (destruct (ascii_dec "-" _) as [E|_]; [discriminate E|exact IHd]).
Qed.

Lemma of_N_no_dash (n : N) : contains "-" (of_N n) = false.
Proof.
  unfold of_N, NilZero.string_of_uint.
  destruct (N.to_uint n); try apply digits_no_dash. reflexivity.
Qed.

Lemma of_N_inj (n m : N) : of_N n = of_N m -> n = m.
Proof.
  unfold of_N. intros H.
  apply DecimalN.Unsigned.to_uint_inj.
  assert (U : forall k, N.to_uint k <> Decimal.Nil).
  { intros k. rewrite <- (DecimalN.Unsigned.of_to k), DecimalN.Unsigned.to_of.
    apply DecimalFacts.unorm_nonnil. }
  pose proof (NilZero.usu _ (U n)) as Hn.
  pose proof (NilZero.usu _ (U m)) as Hm.
  rewrite H in Hn. congruence.
Qed.

(** Two texts that end in a dash and a dash-free tail are equal only if
    the tails are. *)
Lemma dash_tail (a b d e : string) :
  contains "-" d = false -> contains "-" e = false ->
  (a ++ String "-" d)%string = (b ++ String "-" e)%string -> d = e.
Proof.
  intros Hd He. revert b. induction a as [|c a IH]; intros [|c' b] H;
    cbn [append] in H.
  - now injection H.
  - injection H as <- ->. exfalso. clear -Hd.
    induction b as [|x b IH]; cbn [append contains prefix] in Hd.
    + destruct (ascii_dec "-" "-"); [|contradiction]. now destruct e.
    + apply orb_false_iff in Hd. apply IH, Hd.
  - injection H as -> <-. exfalso. clear -He.
    induction a as [|x a IH]; cbn [append contains prefix] in He.
    + destruct (ascii_dec "-" "-"); [|contradiction]. now destruct d.
    + apply orb_false_iff in He. apply IH, He.
  - injection H as _ H. now apply (IH b).
Qed.

Lemma append_assoc (a b c : string) :
  ((a ++ b) ++ c)%string = (a ++ b ++ c)%string.
Proof. induction a as [|x a IH]; cbn [append]; congruence. Qed.

Lemma joined_row (c b s k c' b' s' k' : string) (r r' : nat) :
  joined c b s k r = joined c' b' s' k' r' -> r = r'.
Proof.
  unfold joined. intros H.
  apply Nat2N.inj, of_N_inj.
  apply (dash_tail (c ++ "-" ++ b ++ "-" ++ s ++ "-" ++ k)
                   (c' ++ "-" ++ b' ++ "-" ++ s' ++ "-" ++ k'));
    try apply of_N_no_dash.
  rewrite !append_assoc. cbn [append]. exact H.
Qed.

(** X16: an Item ID names its row: the formula of column A shows the
    same non-empty Item ID in two rows only if they are the same row,
    whatever the cells hold (dashes included), and two Item IDs written
    by the Apps Script are equal only if the last rows are. *)
Theorem item_id_names_its_row (wb : workbook) (fill fill' : nat) (g g' : grid) :
  (item_id wb fill <> "" -> item_id wb fill = item_id wb fill' -> fill = fill') /\
  (itemId g = itemId g' -> getLastRow g = getLastRow g').
Proof.
  split.
  - rewrite !item_id_value. cbv zeta.
    destruct (_ || _ || _ || _); [easy|]. intros _.
    destruct (_ || _ || _ || _).
    + unfold joined. intros H. exfalso. revert H. clear.
      now destruct (cell_at (Inventory wb) (2 + fill) 3).
    + intros H. apply joined_row in H. lia.
  - intros H. now apply (joined_row _ _ _ _ _ _ _ _ _ _ H).
Qed.

End ItemIdFacts.

Module DashboardFacts.
Import PyStr Sheet Texts Installed Described PyStrFacts FormulaFacts.

Lemma dashboard_rows (wb : workbook) :
  dashboard "K" wb =
    map (dashboard_row (Inventory wb)) (filter has_item_id (skipn 1 (Sales wb))) /\
  dashboard "L" wb =
    map (dashboard_row (Inventory wb)) (filter has_item_id (skipn 1 (Sales wb))).
Proof.
  unfold dashboard, shown. fold query_formula query_formula_migrate.
  rewrite parse_query_formula, parse_query_formula_migrate.
  split; apply query_shown; lia.
Qed.





(** X18: every row the Shipping Dashboard shows has ten cells, as many
    as the header row written to A1:J1, and a non-empty Item ID; there
    are at most as many rows as the Sales tab has rows below its
    header. *)
Theorem dashboard_shape (wb : workbook) :
  Forall (fun row => List.length row = List.length CreateResaleSheet.dashboard_headers /\
                     cell row 0 <> "")
         (dashboard "K" wb) /\
  List.length (dashboard "K" wb) <= List.length (Sales wb) - 1.
Proof.
  destruct (dashboard_rows wb) as [-> _]. split.
  - apply Forall_forall. intros row Hr. apply in_map_iff in Hr.
    destruct Hr as (sale & <- & Hs). apply filter_In in Hs. destruct Hs as [_ Hs].
    split; [reflexivity|]. cbn [dashboard_row cell nth].
    unfold has_item_id in Hs. apply negb_true_iff in Hs.
    now apply String.eqb_neq in Hs.
  - rewrite length_map. etransitivity; [apply filter_length_le|].
    rewrite length_skipn. lia.
Qed.

End DashboardFacts.

(* ================================================================= *)
(** ** The migrated rows and the Apps Script, cell by cell *)

Module MigrationFacts.
Import PyStr Sheet Migrate Described.

Lemma pad_loop_fills (fuel : nat) (row : list string) :
  pad_loop fuel row = row ++ repeat "" (Nat.min fuel (10 - List.length row)).
Proof.
  revert row. induction fuel as [|k IH]; intros row; cbn [pad_loop].
  - cbn. now rewrite app_nil_r.
  - destruct (Nat.ltb_spec (List.length row) 10) as [Hlt|Hge].
    + rewrite IH, length_app. cbn [List.length].
      replace (Nat.min (S k) (10 - List.length row))
        with (S (Nat.min k (10 - (List.length row + 1)))) by lia.
      cbn [repeat]. now rewrite <- app_assoc.
    + replace (10 - List.length row) with 0 by lia.
      rewrite Nat.min_0_r. cbn. now rewrite app_nil_r.
Qed.

(** X19: the migration loses nothing of the ten columns it reads: the
    [while] loop fills a row up to ten cells with empty strings and
    leaves a longer row alone, and the padded row is read back from the
    migrated row, its first nine cells from columns A to I and its tenth
    from column L, with J and K left empty. *)
Theorem migration_keeps_the_cells (row : list string) :
  let m := migrated_row row in
  pad row = row ++ repeat "" (10 - List.length row) /\
  firstn 9 m ++ [nth 11 m ""] = firstn 10 (pad row) /\
  nth 9 m "" = "" /\ nth 10 m "" = "".
Proof.
  split.
  - unfold pad. rewrite pad_loop_fills. f_equal. f_equal. lia.
  - unfold migrated_row, pad.
    do 10 (destruct row as [|? row]; [repeat split|]). repeat split.
Qed.

End MigrationFacts.

Module AppsScriptFacts.
Import PyStr Sheet AppsScript Described.













End AppsScriptFacts.

(* ================================================================= *)
(** ** The requests *)

Module RequestFacts.
Import PyStr Api Run Common Repository Paths Parts Asked.
Import PathFacts ScriptFacts.

Create HintDb script_parts.
#[local] Hint Unfold
  CreateResaleSheet.main CreateResaleSheet.create_spreadsheet
  CreateResaleSheet.setup_inventory_tab CreateResaleSheet.setup_sales_tab
  CreateResaleSheet.setup_shipping_dashboard
  CreateResaleSheet.apply_data_validations CreateResaleSheet.apply_formatting
  CreateResaleSheet.create_inventory_filters
  CreateResaleSheet.create_shipping_filter CreateResaleSheet.on_error
  CreateInventoryForm.main CreateInventoryForm.create_form_for_inventory
  CreateInventoryForm.create_apps_script_instructions
  CreateInventoryForm.on_error
  MigrateToConsolidated.main MigrateToConsolidated.migrate_spreadsheet
  MigrateToConsolidated.on_error
  RemoveConditionColumn.main RemoveConditionColumn.remove_condition_column
  RemoveConditionColumn.on_error
  AddInventoryFilters.main AddInventoryFilters.add_inventory_filters
  AddInventoryFilters.on_error
  AddItemIdDropdown.main AddItemIdDropdown.add_item_id_validation
  AddItemIdDropdown.on_error
  AddEssentialsHoodie.main : script_parts.


(** X21: remove_condition_column.py deletes a filter view exactly when
    it is a view of a sheet titled Inventory and is itself titled In
    Stock, Sold or All Statuses: views on other tabs and views the
    operator made under other names are kept. *)
Theorem stale_filter_views_are_the_three (sheets : list sheet) (q : sheets_request) :
  In q (RemoveConditionColumn.stale_filter_views sheets) <->
  exists s fv,
    In s sheets /\ sheet_title s = "Inventory" /\
    In fv (filterViews s) /\
    In (fv_title fv) ["In Stock"; "Sold"; "All Statuses"] /\
    q = deleteFilterView (filterViewId fv).
Proof.
  unfold RemoveConditionColumn.stale_filter_views.
  rewrite in_concat. split.
  - intros (l & Hl & Hq). apply in_map_iff in Hl. destruct Hl as (s & <- & Hs).
    destruct (String.eqb_spec (sheet_title s) "Inventory") as [E|_]; [|contradiction].
    apply in_concat in Hq. destruct Hq as (l & Hl & Hq).
    apply in_map_iff in Hl. destruct Hl as (fv & <- & Hfv).
    destruct (mem (fv_title fv) _) eqn:Hm; [|contradiction].
    destruct Hq as [<-|[]]. exists s, fv. repeat split; try assumption.
    unfold mem in Hm. apply existsb_exists in Hm. destruct Hm as (x & Hx & Ex).
    apply String.eqb_eq in Ex. now subst.
  - intros (s & fv & Hs & Ht & Hfv & Hn & ->).
    eexists. split; [apply in_map_iff; exists s; split; [reflexivity|exact Hs]|].
    rewrite Ht, String.eqb_refl. apply in_concat.
    eexists. split; [apply in_map_iff; exists fv; split; [reflexivity|exact Hfv]|].
    replace (mem (fv_title fv) _) with true; [now left|].
    symmetry. unfold mem. apply existsb_exists. exists (fv_title fv).
    split; [exact Hn|apply String.eqb_refl].
Qed.

Lemma main_carries_something (s : script) (sys_argv : list string) :
  all_calls (fun r => carries_something r = true) (main s sys_argv).
Proof.
  destruct s; cbn [main]; autounfold with script_parts; every_call.
  cbn [carries_something]. now destruct (concat _).
Qed.

(** X22: no script sends an empty write: every [batchUpdate] carries at
    least one entry and every [values.update] at least one row.  The
    tests [if purchases_rows:] of the migration and [if requests:] of
    remove_condition_column.py see to the two lists that could be
    empty. *)
Theorem no_empty_write (s : script) (sys_argv : list string) (w : world) :
  Forall (fun c => carries_something (fst c) = true)
         (calls (trace s sys_argv w)).
Proof.
  unfold trace, run.
  apply (all_calls_run (fun r => carries_something r = true)),
        main_carries_something.
Qed.

End RequestFacts.

(* ================================================================= *)
(** ** The confirmation prompt *)

Module ConsentFacts.
Import PyStr PyStrFacts Paths Parts.

Lemma lstrip_blank (s : string) : blank s = true -> lstrip s = "".
Proof.
  induction s as [|c t IH]; [reflexivity|]. cbn [blank lstrip].
  intros H. apply andb_true_iff in H. destruct H as [-> H]. auto.
Qed.

Lemma rstrip_blank (s : string) : blank s = true -> rstrip s = "".
Proof.
  induction s as [|c t IH]; [reflexivity|]. cbn [blank rstrip].
  intros H. apply andb_true_iff in H. destruct H as [-> H]. now rewrite IH.
Qed.

Lemma lstrip_after_blank (pre s : string) :
  blank pre = true -> lstrip (pre ++ s) = lstrip s.
Proof.
  induction pre as [|c t IH]; [reflexivity|]. cbn [blank append lstrip].
  intros H. apply andb_true_iff in H. destruct H as [-> H]. auto.
Qed.

Lemma rstrip_before_blank (s post : string) :
  blank post = true -> rstrip (s ++ post) = rstrip s.
Proof.
  intros H. induction s as [|c t IH]; cbn [append rstrip].
  - now apply rstrip_blank.
  - now rewrite IH.
Qed.

Lemma strip_before_blank (s post : string) :
  blank post = true -> strip (s ++ post) = strip s.
Proof.
  intros H. unfold strip. induction s as [|c t IH]; cbn [append lstrip].
  - now rewrite lstrip_blank.
  - destruct (is_space c); [exact IH|].
    now apply (rstrip_before_blank (String c t)).
Qed.

Lemma is_space_lower (c : ascii) : is_space (lower_char c) = is_space c.
Proof. destruct c as [[] [] [] [] [] [] [] []]; reflexivity. Qed.

Lemma lstrip_lower (s : string) : lstrip (lower s) = lower (lstrip s).
Proof.
  induction s as [|c t IH]; [reflexivity|]. cbn [lower lstrip].
  rewrite is_space_lower. now destruct (is_space c).
Qed.

Lemma rstrip_lower (s : string) : rstrip (lower s) = lower (rstrip s).
Proof.
  induction s as [|c t IH]; [reflexivity|]. cbn [lower rstrip].
  rewrite IH, is_space_lower.
  destruct (rstrip t); cbn [lower]; [now destruct (is_space c)|reflexivity].
Qed.

Lemma strip_lower (s : string) : strip (lower s) = lower (strip s).
Proof. unfold strip. now rewrite lstrip_lower, rstrip_lower. Qed.

(** X23: the answer to the confirmation prompt is read without regard
    to whitespace around it or to letter case: answers that differ only
    in blanks before and after are taken alike, and so are answers with
    the same lowercase form. *)
Theorem consent_ignores_blanks_and_case (pre post a b : string) :
  (blank pre = true -> blank post = true ->
   declined (pre ++ a ++ post) = declined a) /\
  (lower a = lower b -> declined a = declined b).
Proof.
  unfold declined. split.
  - intros Hpre Hpost. f_equal. f_equal. f_equal.
    unfold strip. rewrite lstrip_after_blank by exact Hpre.
    now apply strip_before_blank.
  - intros H. now rewrite <- !strip_lower, H.
Qed.

End ConsentFacts.
